(** * ebpflow: the user-space event consumer of [ebpflow.py]

    A shallow embedding of the record layout, the event formatter, the event
    counters, the perf-buffer callback and the filter substitution of
    [src/ebpflow.py], followed by the properties of the specification that
    were checked against them.

    Conventions of the embedding.
    - The script is written for the Python 2 interpreter that [bcc] shipped
      with: a [c_char] array field is read as a [str], which is a byte string,
      and it is compared and formatted as such.  A [str] is a [string] here.
    - Python integers are unbounded: they are [Z].
    - A raised exception is a value of [result]; state that was changed before
      the exception stays changed.
    - The host byte order is a parameter ([byteorder]); [ctypes] structures and
      [struct.pack("I", _)] use the native order. *)

From Stdlib Require Import ZArith Ascii String List Lia.
From stdpp Require Import gmap strings pretty list.

Local Open Scope Z_scope.

(** ** Exceptions *)

Inductive exn : Type :=
  | KeyError (key : Z)
  | TypeError
  | ValueError
  | StructError
  | IOError.

Inductive result (A : Type) : Type :=
  | Ok (a : A)
  | Raise (e : exn).
Arguments Ok {A} a.
Arguments Raise {A} e.

Global Instance result_ret : MRet result := λ A a, Ok a.
Global Instance result_bind : MBind result := λ A B f m,
  match m with
  | Ok a => f a
  | Raise e => Raise e
  end.

(** ** Strings *)

Definition nl : string := String "010" "".
Definition dquote : string := String "034" "".

(** [sep.join(lines)] *)
Fixpoint join (sep : string) (lines : list string) : string :=
  match lines with
  | [] => ""
  | [l] => l
  | l :: ls => l +:+ sep +:+ join sep ls
  end.

(** [fmt % args] for a format that only uses [%s]; every argument has
    already been converted with [str].  Too few or too many arguments raise
    [TypeError], another conversion character raises [ValueError]. *)
Fixpoint format (fmt : string) (args : list string) : result string :=
  match fmt with
  | "" => match args with [] => Ok "" | _ :: _ => Raise TypeError end
  | String "%" (String "s" rest) =>
      match args with
      | a :: args' => s ← format rest args'; Ok (a +:+ s)
      | [] => Raise TypeError
      end
  | String "%" _ => Raise ValueError
  | String c rest => s ← format rest args; Ok (String c s)
  end.

(** [s[:n]] *)
Definition slice_to (n : nat) (s : string) : string := substring 0 n s.

(** [s.replace(old, new)] for a non-empty [old]: the occurrences of [old] are
    found from left to right and do not overlap.  [skip] counts the characters
    of an occurrence that are still to be passed over. *)
Fixpoint replace_go (skip : nat) (old new s : string) : string :=
  match s with
  | "" => ""
  | String c s' =>
      match skip with
      | S k => replace_go k old new s'
      | O =>
          if String.prefix old s
          then new +:+ replace_go (String.length old - 1) old new s'
          else String c (replace_go 0 old new s')
      end
  end.
Definition replace (old new s : string) : string := replace_go 0 old new s.

(** [s.find(sub)]; [None] stands for -1. *)
Definition find (sub s : string) : option nat := index 0 sub s.

(** ** Raw memory *)

Inductive byteorder : Type := LittleEndian | BigEndian.

Definition byte_val (b : Byte.byte) : Z := Z.of_N (Byte.to_N b).

Definition byte_of_Z (z : Z) : Byte.byte :=
  default Byte.x00 (Byte.of_N (Z.to_N (z mod 256))).

(** bytes [off .. off+len) of a buffer *)
Definition field (off len : nat) (data : list Byte.byte) : list Byte.byte :=
  take len (drop off data).

Definition uint_le (bs : list Byte.byte) : Z :=
  foldr (λ b acc, byte_val b + 256 * acc) 0 bs.

(** an unsigned integer field ([c_uint16], [c_uint32], [c_uint64]) *)
Definition c_uint (host : byteorder) (bs : list Byte.byte) : Z :=
  match host with
  | LittleEndian => uint_le bs
  | BigEndian => uint_le (reverse bs)
  end.

(** [c_int]: 32 bits, two's complement *)
Definition c_int (host : byteorder) (bs : list Byte.byte) : Z :=
  let u := c_uint host bs in
  if u <? 2 ^ 31 then u else u - 2 ^ 32.

(** a [c_char * n] field is read as the bytes before the first NUL *)
Fixpoint until_nul (bs : list Byte.byte) : list Byte.byte :=
  match bs with
  | [] => []
  | b :: bs' => if Byte.eqb b Byte.x00 then [] else b :: until_nul bs'
  end.
Definition c_char_array (bs : list Byte.byte) : string :=
  string_of_list_byte (until_nul bs).

Fixpoint bytes_le (n : nat) (x : Z) : list Byte.byte :=
  match n with
  | O => []
  | S n' => byte_of_Z x :: bytes_le n' (x / 256)
  end.

(** [struct.pack("I", x)]: four bytes, native order *)
Definition pack_I (host : byteorder) (x : Z) : result (list Byte.byte) :=
  if decide (0 ≤ x < 2 ^ 32) then
    Ok (match host with
        | LittleEndian => bytes_le 4 x
        | BigEndian => reverse (bytes_le 4 x)
        end)
  else Raise StructError.

(** [socket.inet_ntop(AF_INET, packed)] *)
Definition inet_ntop (packed : list Byte.byte) : result string :=
  match packed with
  | [a; b; c; d] =>
      Ok (join "." [pretty (byte_val a); pretty (byte_val b);
                    pretty (byte_val c); pretty (byte_val d)])
  | _ => Raise ValueError
  end.

(** [socket.ntohs]: imported by the script, called nowhere *)
Definition ntohs (host : byteorder) (x : Z) : Z :=
  match host with
  | LittleEndian => (x mod 256) * 256 + (x / 256) mod 256
  | BigEndian => x
  end.

(** ** User/kernel data structures

    [ctypes.Structure] lays the fields out in declaration order with the
    native alignment; every field below starts at a multiple of its own
    alignment, so there is no padding. *)

Definition TASK_COMM_LEN : nat := 16.
Definition CGROUP_NAME : nat := 64.

Module task_info.
Record t : Type := mk {
  pid : Z;                          (* c_uint32, offset 0 *)
  uid : Z;                          (* c_uint32, offset 4 *)
  gid : Z;                          (* c_uint32, offset 8 *)
  cgroup_chars : list Byte.byte;    (* c_char * CGROUP_NAME, offset 12 *)
  task_chars : list Byte.byte       (* c_char * TASK_COMM_LEN, offset 76 *)
}.
Definition sizeof : nat := 92.

(** what the attribute accesses [.cgroup] and [.task] return *)
Definition cgroup (self : t) : string := c_char_array (cgroup_chars self).
Definition task (self : t) : string := c_char_array (task_chars self).

(** the structure seen through a buffer of [sizeof] bytes *)
Definition read (host : byteorder) (bs : list Byte.byte) : t :=
  {| pid := c_uint host (field 0 4 bs);
     uid := c_uint host (field 4 4 bs);
     gid := c_uint host (field 8 4 bs);
     cgroup_chars := field 12 CGROUP_NAME bs;
     task_chars := field 76 TASK_COMM_LEN bs |}.
End task_info.

Module net_info4.
Record t : Type := mk {
  loc_port : Z;   (* c_uint16, offset 0 *)
  dst_port : Z;   (* c_uint16, offset 2 *)
  saddr : Z;      (* c_uint32, offset 4 *)
  daddr : Z       (* c_uint32, offset 8 *)
}.
Definition sizeof : nat := 12.

Definition read (host : byteorder) (bs : list Byte.byte) : t :=
  {| loc_port := c_uint host (field 0 2 bs);
     dst_port := c_uint host (field 2 2 bs);
     saddr := c_uint host (field 4 4 bs);
     daddr := c_uint host (field 8 4 bs) |}.
End net_info4.

Module kernel_data.
Record t : Type := mk {
  absolute_time : Z;       (* c_uint64, offset 0 *)
  ktime : Z;               (* c_uint64, offset 8 *)
  task : task_info.t;      (* offset 16 *)
  ptask : task_info.t;     (* offset 108 *)
  etype : Z;               (* c_int, offset 200 *)
  net4 : net_info4.t       (* offset 204 *)
}.
Definition sizeof : nat := 216.

Definition read (host : byteorder) (bs : list Byte.byte) : t :=
  {| absolute_time := c_uint host (field 0 8 bs);
     ktime := c_uint host (field 8 8 bs);
     task := task_info.read host (field 16 task_info.sizeof bs);
     ptask := task_info.read host (field 108 task_info.sizeof bs);
     etype := c_int host (field 200 4 bs);
     net4 := net_info4.read host (field 204 net_info4.sizeof bs) |}.

Definition _ltask : string := "[ktime: %s][gid: %s][uid: %s][pid: %s][%s]".
Definition _lparent : string := "parent: [gid: %s][uid: %s][pid: %s][%s]".
Definition _lnetinfo : string := "netinfo: [%s][IPv4][%s:%s <-> %s:%s]".
Definition _lcgroup : string := "container: [dockerid: %s]".

Definition _etype_table : gmap Z string :=
  {[ 601 := "TCP/ACC"; 602 := "TCP/CONN" ]}.

Definition etype2str (self : t) : result string :=
  match _etype_table !! etype self with
  | Some label => Ok label
  | None => Raise (KeyError (etype self))
  end.

(** the list [lines] that [__str__] builds *)
Definition lines (host : byteorder) (NO_TRUNC : bool) (self : t)
    : result (list string) :=
  ltask ← format _ltask
    [pretty (ktime self); pretty (task_info.gid (task self));
     pretty (task_info.uid (task self)); pretty (task_info.pid (task self));
     task_info.task (task self)];
  lparent ← format _lparent
    [pretty (task_info.gid (ptask self)); pretty (task_info.uid (ptask self));
     pretty (task_info.pid (ptask self)); task_info.task (ptask self)];
  label ← etype2str self;
  src ← pack_I host (net_info4.saddr (net4 self)) ≫= inet_ntop;
  dst ← pack_I host (net_info4.daddr (net4 self)) ≫= inet_ntop;
  lnetinfo ← format _lnetinfo
    [label; src; pretty (net_info4.loc_port (net4 self));
     dst; pretty (net_info4.dst_port (net4 self))];
  if decide (task_info.cgroup (task self) ≠ "/") then
    let dockerid :=
      if NO_TRUNC then task_info.cgroup (task self)
      else slice_to 12 (task_info.cgroup (task self)) in
    lcgroup ← format _lcgroup [dockerid];
    Ok [ltask; lparent; lnetinfo; lcgroup]
  else Ok [ltask; lparent; lnetinfo].

Definition __str__ (host : byteorder) (NO_TRUNC : bool) (self : t)
    : result string :=
  ls ← lines host NO_TRUNC self;
  Ok (join (nl +:+ "|__") ls).
End kernel_data.

(** [ct.cast(data, ct.POINTER(kernel_data)).contents]: the structure is a view
    of the [kernel_data.sizeof] bytes at [data].  A buffer that holds fewer
    bytes would be read past its end, which has no defined result: [None]. *)
Definition cast_contents (host : byteorder) (data : list Byte.byte)
    : option kernel_data.t :=
  if decide (kernel_data.sizeof ≤ length data)%nat
  then Some (kernel_data.read host data)
  else None.

(** ** Events statistics *)

Module AtomicInteger.
(** [m_lock] is taken and released around each method body, and by nothing
    else: every body below is one atomic step.  The calls are taken apart
    into their steps, with the lock, in [Interleaved] below. *)
Record t : Type := mk { m_value : Z }.

Definition __init__ (t_value : Z) : t := {| m_value := t_value |}.

(** mutates the object and returns it *)
Definition __add__ (self : t) (t_v : Z) : t :=
  {| m_value := m_value self + t_v |}.

Definition get (self : t) : Z := m_value self.
End AtomicInteger.

Module Events_Statics.
Record t : Type := mk {
  connect_counter : AtomicInteger.t;
  accept_counter : AtomicInteger.t
}.

Definition __init__ : t :=
  {| connect_counter := AtomicInteger.__init__ 0;
     accept_counter := AtomicInteger.__init__ 0 |}.

(** [self.c += 1] calls [c.__add__(1)] and stores the returned object
    back into the attribute *)
Definition add (self : t) (e : kernel_data.t) : t :=
  if decide (kernel_data.etype e = 601) then
    {| connect_counter := connect_counter self;
       accept_counter := AtomicInteger.__add__ (accept_counter self) 1 |}
  else
    {| connect_counter := AtomicInteger.__add__ (connect_counter self) 1;
       accept_counter := accept_counter self |}.

Definition line : string :=
  "===== Events count =====" +:+ nl +:+ "tot: %s " +:+ nl +:+
  "accpt: %s " +:+ nl +:+ "conn: %s".

Definition __str__ (self : t) : result string :=
  let conn := AtomicInteger.get (accept_counter self) in
  let acpt := AtomicInteger.get (connect_counter self) in
  format line [pretty (conn + acpt); pretty conn; pretty acpt].
End Events_Statics.

(** ** Event handler *)

(** the global [estats] and what has been written to standard output, one
    entry for each [print] *)
Record world : Type := mkWorld {
  estats : Events_Statics.t;
  stdout : list string
}.

Definition initial_world : world :=
  {| estats := Events_Statics.__init__; stdout := [] |}.

(** The callback of the perf buffer.  The result is [None] when the buffer is
    read past its end; otherwise it is the world after the call, with
    [Raise e] when the call ends by the exception [e].  [cpu] and [size] are
    used nowhere in the body. *)
Definition print_ipv4_event (host : byteorder) (NO_TRUNC : bool)
    (w : world) (cpu : Z) (data : list Byte.byte) (size : Z)
    : option (world * result unit) :=
  event ← cast_contents host data;
  let w1 := {| estats := Events_Statics.add (estats w) event;
               stdout := stdout w |} in
  match kernel_data.__str__ host NO_TRUNC event with
  | Ok s => Some ({| estats := estats w1; stdout := stdout w1 ++ [s] |}, Ok ())
  | Raise e => Some (w1, Raise e)
  end.

(** ** Attaching probes: the program text *)

(** [open(name, 'r').read()] on a file system given as a map from names to
    contents *)
Definition read_file (fs : gmap string string) (name : string)
    : result string :=
  match fs !! name with
  | Some txt => Ok txt
  | None => Raise IOError
  end.

Definition readebpf (fs : gmap string string) (src : string)
    (task : option string) : result string :=
  ebpftxt ← read_file fs "ebpf.c";
  fltr ← match task with
         | Some name =>
             format ("if(ebpf_strcmp(event_data.task.task, " +:+ dquote +:+
                     "%s" +:+ dquote +:+ ") == 0)") [name]
         | None => Ok ""
         end;
  Ok (replace "FLTR_TASK" fltr ebpftxt).

(** ** Sample records

    Buffers as a little-endian kernel would submit them, built field by
    field in the layout above. *)

Definition chars (n : nat) (s : string) : list Byte.byte :=
  take n (list_byte_of_string s ++ replicate n Byte.x00).

Definition sample_task (pid uid gid : Z) (cgroup comm : string)
    : list Byte.byte :=
  bytes_le 4 pid ++ bytes_le 4 uid ++ bytes_le 4 gid ++
  chars CGROUP_NAME cgroup ++ chars TASK_COMM_LEN comm.

(** a record of kind [etype] of the task [curl] (pid 4242) in the cgroup
    [cgroup], child of [bash]; the ports and the addresses are given as the
    bytes of the buffer *)
Definition sample_record (etype : Z) (cgroup : string)
    (loc_port dst_port saddr daddr : list Byte.byte) : list Byte.byte :=
  bytes_le 8 1541289600000000000 ++ bytes_le 8 123456789 ++
  sample_task 4242 1000 1000 cgroup "curl" ++
  sample_task 4000 1000 1000 "/" "bash" ++
  bytes_le 4 etype ++ loc_port ++ dst_port ++ saddr ++ daddr.

(** 192.168.1.10, port 8080 in network byte order (1f 90), to 10.0.0.1,
    port 80 in network byte order (00 50) *)
Definition sample_net (etype : Z) (cgroup : string) : list Byte.byte :=
  sample_record etype cgroup
    [Byte.x1f; Byte.x90] [Byte.x00; Byte.x50]
    [Byte.xc0; Byte.xa8; Byte.x01; Byte.x0a]
    [Byte.x0a; Byte.x00; Byte.x00; Byte.x01].

(** ** Runs of the aggregator *)

(** [add] called once for each event of [es], in this order *)
Definition add_all (s : Events_Statics.t) (es : list kernel_data.t)
    : Events_Statics.t :=
  foldl Events_Statics.add s es.

Definition is_accept (e : kernel_data.t) : Prop := kernel_data.etype e = 601.
Definition is_connect (e : kernel_data.t) : Prop := kernel_data.etype e = 602.

Global Instance is_accept_dec e : Decision (is_accept e).
Proof. unfold is_accept. apply _. Defined.
Global Instance is_connect_dec e : Decision (is_connect e).
Proof. unfold is_connect. apply _. Defined.

(** the number of events of [es] that satisfy [P] *)
Definition count (P : kernel_data.t → Prop) `{∀ e, Decision (P e)}
    (es : list kernel_data.t) : nat :=
  length (filter P es).

Definition accepts (s : Events_Statics.t) : Z :=
  AtomicInteger.get (Events_Statics.accept_counter s).
Definition connects (s : Events_Statics.t) : Z :=
  AtomicInteger.get (Events_Statics.connect_counter s).

(** the summary block for the three numbers *)
Definition summary (tot accpt conn : Z) : string :=
  "===== Events count =====" +:+ nl +:+
  "tot: " +:+ pretty tot +:+ " " +:+ nl +:+
  "accpt: " +:+ pretty accpt +:+ " " +:+ nl +:+
  "conn: " +:+ pretty conn.

(** an event of the given kind, every other field zero or empty *)
Definition blank_task : task_info.t :=
  {| task_info.pid := 0; task_info.uid := 0; task_info.gid := 0;
     task_info.cgroup_chars := replicate CGROUP_NAME Byte.x00;
     task_info.task_chars := replicate TASK_COMM_LEN Byte.x00 |}.
Definition event_of_kind (etype : Z) : kernel_data.t :=
  {| kernel_data.absolute_time := 0; kernel_data.ktime := 0;
     kernel_data.task := blank_task; kernel_data.ptask := blank_task;
     kernel_data.etype := etype;
     kernel_data.net4 :=
       {| net_info4.loc_port := 0; net_info4.dst_port := 0;
          net_info4.saddr := 0; net_info4.daddr := 0 |} |}.

(** ** Interleaved calls of [add]

    The calls of [add] for the events of a list, run as one thread of
    control each.  A call works on one counter, chosen by the kind of its
    event, and goes through [__add__] in four steps: entering
    [with self.m_lock], reading [self.m_value], storing the sum, leaving the
    [with] block.  Storing the returned object back into the attribute of
    [Events_Statics] rebinds it to the same object and is no step. *)

Module Interleaved.

Inductive pc : Type :=
  | Acquire             (* before [with self.m_lock] *)
  | Load                (* lock held, [self.m_value] not yet read *)
  | Store (seen : Z)    (* [self.m_value] read as [seen], sum not yet stored *)
  | Release             (* sum stored, lock still held *)
  | Done.

Record call : Type := mkCall {
  on_accept : bool;     (* the call works on [accept_counter] *)
  at_pc : pc
}.

Record counter : Type := mkCounter {
  m_value : Z;
  m_lock : bool         (* the lock is held *)
}.

Record state : Type := mkState {
  accept_counter : counter;
  connect_counter : counter;
  calls : list call
}.

Definition ctr (c : bool) (s : state) : counter :=
  if c then accept_counter s else connect_counter s.

Definition set_ctr (c : bool) (x : counter) (s : state) : state :=
  if c then {| accept_counter := x; connect_counter := connect_counter s;
               calls := calls s |}
  else {| accept_counter := accept_counter s; connect_counter := x;
          calls := calls s |}.

Definition set_pc (i : nat) (th : call) (p : pc) (s : state) : state :=
  {| accept_counter := accept_counter s;
     connect_counter := connect_counter s;
     calls := <[i := {| on_accept := on_accept th; at_pc := p |}]> (calls s) |}.

(** one step of call [i]; [None] when there is no such call, when it has
    returned, or when it waits for a lock that is held *)
Definition step (i : nat) (s : state) : option state :=
  th ← calls s !! i;
  let c := on_accept th in
  let x := ctr c s in
  match at_pc th with
  | Acquire =>
      if m_lock x then None
      else Some (set_pc i th Load
                   (set_ctr c {| m_value := m_value x; m_lock := true |} s))
  | Load => Some (set_pc i th (Store (m_value x)) s)
  | Store seen =>
      Some (set_pc i th Release
              (set_ctr c {| m_value := seen + 1; m_lock := m_lock x |} s))
  | Release =>
      Some (set_pc i th Done
              (set_ctr c {| m_value := m_value x; m_lock := false |} s))
  | Done => None
  end.

(** the steps of a schedule, which names the call that moves at each step *)
Fixpoint run (sched : list nat) (s : state) : option state :=
  match sched with
  | [] => Some s
  | i :: sched' => s' ← step i s; run sched' s'
  end.

(** one call for each event, none started, both counters at 0 *)
Definition spawn (es : list kernel_data.t) : state :=
  {| accept_counter := {| m_value := 0; m_lock := false |};
     connect_counter := {| m_value := 0; m_lock := false |};
     calls := (λ e, {| on_accept := bool_decide (kernel_data.etype e = 601);
                       at_pc := Acquire |}) <$> es |}.

Definition all_done (s : state) : Prop :=
  Forall (λ th, at_pc th = Done) (calls s).

(** what the invariant counts *)
Definition tally (f : call → Z) (ths : list call) : Z :=
  foldr (λ th acc, f th + acc) 0 ths.

Definition holds_lock (c : bool) (th : call) : Z :=
  if bool_decide (on_accept th = c) then
    match at_pc th with
    | Load | Store _ | Release => 1
    | Acquire | Done => 0
    end
  else 0.

Definition has_stored (c : bool) (th : call) : Z :=
  if bool_decide (on_accept th = c) then
    match at_pc th with
    | Release | Done => 1
    | Acquire | Load | Store _ => 0
    end
  else 0.

Definition progress (th : call) : Z :=
  match at_pc th with
  | Acquire => 0
  | Load => 1
  | Store _ => 2
  | Release => 3
  | Done => 4
  end.

(** the lock of a counter is held by exactly the call that is inside
    [__add__] on it, the counter holds the number of sums stored, and a call
    that has read the counter has read its present value *)
Definition invariant (s : state) : Prop :=
  ∀ c : bool,
    tally (holds_lock c) (calls s) = (if m_lock (ctr c s) then 1 else 0) ∧
    m_value (ctr c s) = tally (has_stored c) (calls s) ∧
    ∀ j th v, calls s !! j = Some th → on_accept th = c →
              at_pc th = Store v → v = m_value (ctr c s).

(** the call is inside the [with self.m_lock] block of [__add__] *)
Definition inside (th : call) : Prop :=
  match at_pc th with
  | Load | Store _ | Release => True
  | Acquire | Done => False
  end.

End Interleaved.

(** ** Polling events *)

Definition cr : string := String "013" "".

(** one record as the perf buffer hands it to the callback *)
Record delivery : Type := mkDelivery {
  d_cpu : Z;
  d_data : list Byte.byte;
  d_size : Z
}.

(** [bpf.perf_buffer_poll(timeout=50)] as this script observes it: before it
    returns, the callback given to [open_perf_buffer] is called once for each
    record delivered, in order.  An exception of the callback is reported by
    the foreign-function layer and does not end the call; the changes the
    callback made before it stay. *)
Fixpoint perf_buffer_poll (host : byteorder) (NO_TRUNC : bool) (w : world)
    (ds : list delivery) : option world :=
  match ds with
  | [] => Some w
  | d :: ds' =>
      r ← print_ipv4_event host NO_TRUNC w (d_cpu d) (d_data d) (d_size d);
      perf_buffer_poll host NO_TRUNC r.1 ds'
  end.

(** [signal_handler]: whatever [RUNNING] was, it is [False] afterwards *)
Definition signal_handler (RUNNING : bool) : bool := false.

(** what one call of [perf_buffer_poll] meets: the records delivered during
    the call, and whether SIGINT has been handled by the time it returns *)
Record poll : Type := mkPoll {
  delivered : list delivery;
  sigint : bool
}.

(** [while RUNNING: bpf.perf_buffer_poll(timeout=50)] against the polls that
    the list describes.  [None] when the loop is still polling after the
    last of them (or when a record was read past its end). *)
Fixpoint poll_loop (host : byteorder) (NO_TRUNC : bool) (RUNNING : bool)
    (polls : list poll) (w : world) : option world :=
  match polls with
  | [] => if RUNNING then None else Some w
  | p :: polls' =>
      if RUNNING then
        w' ← perf_buffer_poll host NO_TRUNC w (delivered p);
        poll_loop host NO_TRUNC
          (if sigint p then signal_handler RUNNING else RUNNING) polls' w'
      else Some w
  end.

(** the loop followed by the last statement of the script,
    [print('\r  \n' + str(estats))] *)
Definition poll_and_report (host : byteorder) (NO_TRUNC : bool)
    (RUNNING : bool) (polls : list poll) (w : world)
    : option (world * result unit) :=
  w' ← poll_loop host NO_TRUNC RUNNING polls w;
  match Events_Statics.__str__ (estats w') with
  | Ok s =>
      Some ({| estats := estats w';
               stdout := stdout w' ++ [cr +:+ "  " +:+ nl +:+ s] |}, Ok ())
  | Raise e => Some (w', Raise e)
  end.

(** the kind that the callback reads from a delivered record, and the block
    it prints for it, if any *)
Definition kind_of (host : byteorder) (d : delivery) : Z :=
  kernel_data.etype (kernel_data.read host (d_data d)).

Definition block_of (host : byteorder) (NO_TRUNC : bool) (d : delivery)
    : option string :=
  match kernel_data.__str__ host NO_TRUNC (kernel_data.read host (d_data d)) with
  | Ok s => Some s
  | Raise _ => None
  end.

(** every record holds at least the bytes of the structure *)
Definition full_records (ds : list delivery) : Prop :=
  Forall (λ d, (kernel_data.sizeof ≤ length (d_data d))%nat) ds.

(** * Properties *)

(** ** The aggregator *)

Section aggregator.
Implicit Types (s : Events_Statics.t) (e : kernel_data.t)
  (es : list kernel_data.t).

Lemma add_accept s e :
  is_accept e →
  accepts (Events_Statics.add s e) = accepts s + 1 ∧
  connects (Events_Statics.add s e) = connects s.
Proof.
  unfold is_accept, Events_Statics.add. intros He.
  destruct (decide _) as [_|Hne]; [done | by destruct Hne].
Qed.

Lemma add_other s e :
  ¬ is_accept e →
  accepts (Events_Statics.add s e) = accepts s ∧
  connects (Events_Statics.add s e) = connects s + 1.
Proof.
  unfold is_accept, Events_Statics.add. intros He.
  destruct (decide _) as [Heq|_]; [by destruct He | done].
Qed.

Lemma add_all_snoc s es e :
  add_all s (es ++ [e]) = Events_Statics.add (add_all s es) e.
Proof. unfold add_all. by rewrite foldl_app. Qed.

Lemma count_snoc (P : kernel_data.t → Prop) `{∀ e, Decision (P e)} es e :
  count P (es ++ [e]) =
  (count P es + if decide (P e) then 1 else 0)%nat.
Proof.
  unfold count. rewrite filter_app, length_app. f_equal.
  rewrite filter_cons, filter_nil. by destruct (decide (P e)).
Qed.

Lemma accepts_add_all s es :
  accepts (add_all s es) = accepts s + Z.of_nat (count is_accept es).
Proof.
  induction es as [|e es IH] using rev_ind.
  - unfold count; simpl. lia.
  - rewrite add_all_snoc, count_snoc.
    destruct (decide (is_accept e)) as [He|He].
    + destruct (add_accept (add_all s es) e He) as [-> _]. lia.
    + destruct (add_other (add_all s es) e He) as [-> _]. lia.
Qed.

Lemma connects_add_all s es :
  connects (add_all s es) =
  connects s + Z.of_nat (count (λ e, ¬ is_accept e) es).
Proof.
  induction es as [|e es IH] using rev_ind.
  - unfold count; simpl. lia.
  - rewrite add_all_snoc, count_snoc.
    destruct (decide (is_accept e)) as [He|He].
    + destruct (add_accept (add_all s es) e He) as [_ ->].
      destruct (decide (¬ is_accept e)); [done | lia].
    + destruct (add_other (add_all s es) e He) as [_ ->].
      destruct (decide (¬ is_accept e)); [lia | done].
Qed.

Lemma count_split es :
  (count is_accept es + count (λ e, ¬ is_accept e) es = length es)%nat.
Proof.
  induction es as [|e es IH]; [done|].
  unfold count in *. rewrite !filter_cons.
  destruct (decide (is_accept e)), (decide (¬ is_accept e));
    simpl; try done; lia.
Qed.

Lemma count_not_accept es :
  Forall (λ e, is_accept e ∨ is_connect e) es →
  count (λ e, ¬ is_accept e) es = count is_connect es.
Proof.
  induction 1 as [|e es He _ IH]; [done|].
  unfold count in *. rewrite !filter_cons.
  unfold is_accept, is_connect in *.
  destruct (decide (¬ _)), (decide (kernel_data.etype e = 602));
    simpl; try lia.
Qed.

Lemma add_all_perm s es es' : es ≡ₚ es' → add_all s es = add_all s es'.
Proof.
  intros Hp. revert s.
  induction Hp as [|e es es' _ IH|e1 e2 es|es1 es2 es3 _ IH1 _ IH2];
    intros s; simpl.
  - done.
  - apply IH.
  - unfold add_all; simpl. f_equal.
    unfold Events_Statics.add, AtomicInteger.__add__.
    repeat destruct (decide _); simpl; done.
  - by rewrite IH1.
Qed.
End aggregator.

(** ** Interleaved calls of [add] *)

Section interleaved.
Import Interleaved.
Implicit Types (s : state) (th : call) (ths : list call) (c : bool)
  (f : call → Z).

Lemma tally_insert f ths i th th' :
  ths !! i = Some th →
  tally f (<[i := th']> ths) = tally f ths - f th + f th'.
Proof.
  revert i. induction ths as [|a ths IH]; intros [|i] H; simplify_eq/=.
  - lia.
  - rewrite (IH i) by done. lia.
Qed.

Lemma tally_nonneg f ths : (∀ x, 0 ≤ f x) → 0 ≤ tally f ths.
Proof.
  intros Hf. induction ths as [|a ths IH]; simpl; [lia|].
  fold (tally f ths). pose proof (Hf a). lia.
Qed.

Lemma tally_lookup_le f ths i th :
  (∀ x, 0 ≤ f x) → ths !! i = Some th → f th ≤ tally f ths ∧ 0 ≤ tally f ths.
Proof.
  intros Hf. revert i. induction ths as [|a ths IH]; intros [|i] H;
    simplify_eq/=; fold (tally f ths).
  - pose proof (tally_nonneg f ths Hf). pose proof (Hf th). lia.
  - destruct (IH i H). pose proof (Hf a). lia.
Qed.

Lemma tally_two f ths i j th1 th2 :
  (∀ x, 0 ≤ f x) → i ≠ j → ths !! i = Some th1 → ths !! j = Some th2 →
  f th1 + f th2 ≤ tally f ths.
Proof.
  intros Hf. revert i j.
  induction ths as [|a ths IH]; intros [|i] [|j] Hij H1 H2; simplify_eq/=;
    fold (tally f ths).
  - destruct (tally_lookup_le f ths j th2 Hf H2). lia.
  - destruct (tally_lookup_le f ths i th1 Hf H1). lia.
  - pose proof (Hf a). pose proof (IH i j ltac:(lia) H1 H2). lia.
Qed.

Lemma holds_lock_range c th : 0 ≤ holds_lock c th.
Proof. unfold holds_lock. destruct (bool_decide _), (at_pc th); lia. Qed.

Lemma ctr_set_ctr c c' x s :
  ctr c' (set_ctr c x s) = if decide (c' = c) then x else ctr c' s.
Proof. by destruct c, c'. Qed.

Lemma calls_set_ctr c x s : calls (set_ctr c x s) = calls s.
Proof. by destruct c. Qed.

Lemma calls_set_pc i th p s :
  calls (set_pc i th p s) =
  <[i := {| on_accept := on_accept th; at_pc := p |}]> (calls s).
Proof. done. Qed.

Lemma ctr_set_pc c i th p s : ctr c (set_pc i th p s) = ctr c s.
Proof. by destruct c. Qed.

Lemma step_inv i s s' :
  step i s = Some s' →
  ∃ th p x,
    calls s !! i = Some th ∧
    calls s' = <[i := {| on_accept := on_accept th; at_pc := p |}]> (calls s) ∧
    (∀ c, ctr c s' = if decide (c = on_accept th) then x else ctr c s) ∧
    match at_pc th with
    | Acquire =>
        m_lock (ctr (on_accept th) s) = false ∧ p = Load ∧
        x = {| m_value := m_value (ctr (on_accept th) s); m_lock := true |}
    | Load =>
        p = Store (m_value (ctr (on_accept th) s)) ∧ x = ctr (on_accept th) s
    | Store seen =>
        p = Release ∧
        x = {| m_value := seen + 1; m_lock := m_lock (ctr (on_accept th) s) |}
    | Release =>
        p = Done ∧
        x = {| m_value := m_value (ctr (on_accept th) s); m_lock := false |}
    | Done => False
    end.
Proof.
  unfold step. intros H.
  destruct (calls s !! i) as [th|] eqn:Hth; [|done]. cbn in H.
  exists th.
  destruct (at_pc th) eqn:Hpc.
  - destruct (m_lock (ctr (on_accept th) s)) eqn:Hlock; [done|].
    injection H as <-. do 2 eexists. split; [done|].
    split; [by rewrite calls_set_pc, calls_set_ctr|].
    split; [intros c; rewrite ctr_set_pc; apply ctr_set_ctr|]. done.
  - injection H as <-. exists (Store (m_value (ctr (on_accept th) s))),
      (ctr (on_accept th) s).
    split; [done|]. split; [done|].
    split; [intros c; rewrite ctr_set_pc; by destruct (decide _) as [->|]|]. done.
  - injection H as <-. do 2 eexists. split; [done|].
    split; [by rewrite calls_set_pc, calls_set_ctr|].
    split; [intros c; rewrite ctr_set_pc; apply ctr_set_ctr|]. done.
  - injection H as <-. do 2 eexists. split; [done|].
    split; [by rewrite calls_set_pc, calls_set_ctr|].
    split; [intros c; rewrite ctr_set_pc; apply ctr_set_ctr|]. done.
  - done.
Qed.

Lemma holds_lock_eq c p :
  holds_lock c {| on_accept := c; at_pc := p |} =
  match p with Load | Store _ | Release => 1 | Acquire | Done => 0 end.
Proof. unfold holds_lock. by rewrite bool_decide_eq_true_2. Qed.

Lemma has_stored_eq c p :
  has_stored c {| on_accept := c; at_pc := p |} =
  match p with Release | Done => 1 | Acquire | Load | Store _ => 0 end.
Proof. unfold has_stored. by rewrite bool_decide_eq_true_2. Qed.

Lemma holds_lock_ne c c0 p :
  c ≠ c0 → holds_lock c {| on_accept := c0; at_pc := p |} = 0.
Proof. intros H. unfold holds_lock. by rewrite bool_decide_eq_false_2. Qed.

Lemma has_stored_ne c c0 p :
  c ≠ c0 → has_stored c {| on_accept := c0; at_pc := p |} = 0.
Proof. intros H. unfold has_stored. by rewrite bool_decide_eq_false_2. Qed.

(** at most one call is inside [__add__] on a counter *)
Lemma lock_holder_unique s c i j th1 th2 :
  invariant s → i ≠ j →
  calls s !! i = Some th1 → calls s !! j = Some th2 →
  holds_lock c th1 = 1 → holds_lock c th2 = 0.
Proof.
  intros Hinv Hij H1 H2 Hh. destruct (Hinv c) as (Hl & _ & _).
  pose proof (tally_two (holds_lock c) (calls s) i j th1 th2
                (holds_lock_range c) Hij H1 H2).
  pose proof (holds_lock_range c th2).
  destruct (m_lock (ctr c s)); lia.
Qed.

Lemma step_invariant i s s' : invariant s → step i s = Some s' → invariant s'.
Proof.
  intros Hinv (th & p & x & Hth & Hcalls & Hctr & Hcase)%step_inv c.
  destruct (Hinv c) as (Hl & Hv & Hs).
  pose proof (lookup_lt_Some _ _ _ Hth) as Hi.
  rewrite Hcalls, Hctr, !(tally_insert _ _ _ th) by done.
  destruct th as [c0 p0]; cbn [on_accept at_pc] in *.
  destruct (decide (c = c0)) as [->|Hne].
  - pose proof (tally_lookup_le (holds_lock c0) _ _ _
                  (holds_lock_range c0) Hth) as [Hle _].
    rewrite !holds_lock_eq, !has_stored_eq in *.
    assert (Hothers : ∀ j th' v, i ≠ j → calls s !! j = Some th' →
              on_accept th' = c0 → at_pc th' = Store v →
              holds_lock c0 {| on_accept := c0; at_pc := p0 |} = 1 → False).
    { intros j [c1 p1] v Hij Hj Hc1 Hp1 Hh. cbn in Hc1, Hp1. subst.
      pose proof (lock_holder_unique s c0 i j _ _ Hinv Hij Hth Hj Hh) as H0.
      by rewrite holds_lock_eq in H0. }
    destruct p0 as [| |seen| |]; try done.
    + destruct Hcase as (Hfree & -> & ->). cbn [m_value m_lock].
      rewrite Hfree in Hl.
      split; [lia|]. split; [lia|].
      intros j th' v Hj Hc Hp. destruct (decide (i = j)) as [<-|Hij].
      * rewrite list_lookup_insert_eq in Hj by done.
        injection Hj as <-. cbn in Hp. by simplify_eq.
      * rewrite list_lookup_insert_ne in Hj by done. by eapply Hs.
    + destruct Hcase as (-> & ->).
      split; [lia|]. split; [lia|].
      intros j th' v Hj Hc Hp. destruct (decide (i = j)) as [<-|Hij].
      * rewrite list_lookup_insert_eq in Hj by done.
        injection Hj as <-. cbn in Hp. by simplify_eq.
      * rewrite list_lookup_insert_ne in Hj by done. by eapply Hs.
    + destruct Hcase as (-> & ->). cbn [m_value m_lock].
      rewrite (Hs i _ seen Hth eq_refl eq_refl).
      split; [lia|]. split; [lia|].
      intros j th' v Hj Hc Hp. destruct (decide (i = j)) as [<-|Hij].
      * rewrite list_lookup_insert_eq in Hj by done.
        injection Hj as <-. cbn in Hp. by simplify_eq.
      * rewrite list_lookup_insert_ne in Hj by done.
        destruct (Hothers j th' v Hij Hj Hc Hp). by rewrite holds_lock_eq.
    + destruct Hcase as (-> & ->). cbn [m_value m_lock].
      destruct (m_lock (ctr c0 s)); [|lia].
      split; [lia|]. split; [lia|].
      intros j th' v Hj Hc Hp. destruct (decide (i = j)) as [<-|Hij].
      * rewrite list_lookup_insert_eq in Hj by done.
        injection Hj as <-. cbn in Hp. by simplify_eq.
      * rewrite list_lookup_insert_ne in Hj by done. by eapply Hs.
  - rewrite !holds_lock_ne, !has_stored_ne by done.
    split; [lia|]. split; [lia|].
    intros j th' v Hj Hc Hp. destruct (decide (i = j)) as [<-|Hij].
    + rewrite list_lookup_insert_eq in Hj by done.
        injection Hj as <-. cbn in Hp. by simplify_eq.
    + rewrite list_lookup_insert_ne in Hj by done. by eapply Hs.
Qed.

Lemma tally_cons f th ths : tally f (th :: ths) = f th + tally f ths.
Proof. done. Qed.

Lemma tally_zero f ths : Forall (λ th, f th = 0) ths → tally f ths = 0.
Proof.
  induction 1 as [|th ths Hth _ IH]; [done|].
  cbn. fold (tally f ths). lia.
Qed.

Lemma spawn_invariant es : invariant (spawn es).
Proof.
  intros c.
  assert (Hctr : ctr c (spawn es) = {| m_value := 0; m_lock := false |})
    by (by destruct c).
  rewrite Hctr. cbn [m_value m_lock calls spawn].
  split; [|split].
  - apply tally_zero, Forall_fmap, Forall_forall. intros e _.
    unfold holds_lock. cbn. by destruct (bool_decide _).
  - symmetry. apply tally_zero, Forall_fmap, Forall_forall. intros e _.
    unfold has_stored. cbn. by destruct (bool_decide _).
  - intros j th v Hj _ Hp.
    rewrite list_lookup_fmap in Hj. destruct (es !! j); by simplify_eq/=.
Qed.

Lemma run_invariant sched s s' :
  invariant s → run sched s = Some s' → invariant s'.
Proof.
  revert s. induction sched as [|i sched IH]; intros s Hinv H; simplify_eq/=.
  - done.
  - destruct (step i s) as [s1|] eqn:Hstep; [|done].
    eapply IH; [|exact H]. by eapply step_invariant.
Qed.

Lemma run_app sched1 sched2 s :
  run (sched1 ++ sched2) s = run sched1 s ≫= run sched2.
Proof.
  revert s. induction sched1 as [|i sched1 IH]; intros s; [done|].
  cbn. destruct (step i s); [apply IH | done].
Qed.

(** a step changes neither the number of calls nor their counters *)
Lemma step_targets i s s' :
  step i s = Some s' → on_accept <$> calls s' = on_accept <$> calls s.
Proof.
  intros (th & p & x & Hth & -> & _)%step_inv.
  rewrite list_fmap_insert. cbn. apply list_insert_id.
  by rewrite list_lookup_fmap, Hth.
Qed.

Lemma run_targets sched s s' :
  run sched s = Some s' → on_accept <$> calls s' = on_accept <$> calls s.
Proof.
  revert s. induction sched as [|i sched IH]; intros s H; simplify_eq/=.
  - done.
  - destruct (step i s) as [s1|] eqn:Hstep; [|done].
    rewrite (IH s1 H). by eapply step_targets.
Qed.

Lemma tally_all_done c ths :
  Forall (λ th, at_pc th = Done) ths →
  tally (has_stored c) ths =
  Z.of_nat (length (filter (λ b, b = c) (on_accept <$> ths))).
Proof.
  induction 1 as [|[c0 p] ths Hp _ IH]; [done|]. cbn in Hp. subst p.
  rewrite tally_cons, IH, fmap_cons, filter_cons. cbn [on_accept].
  destruct (decide (c0 = c)) as [->|Hne].
  - rewrite has_stored_eq. cbn [length]. lia.
  - rewrite has_stored_ne by done. lia.
Qed.

Lemma spawn_targets es c :
  length (filter (λ b, b = c) (on_accept <$> calls (spawn es))) =
  if c then count is_accept es else count (λ e, ¬ is_accept e) es.
Proof.
  unfold count, is_accept. cbn [calls spawn].
  induction es as [|e es IH]; [by destruct c|].
  cbn [fmap list_fmap on_accept]. rewrite !filter_cons.
  destruct c; destruct (decide (kernel_data.etype e = 601)) as [He|He].
  - rewrite bool_decide_eq_true_2, decide_True by done. cbn. by rewrite IH.
  - rewrite bool_decide_eq_false_2, decide_False by done. by rewrite IH.
  - rewrite bool_decide_eq_true_2, decide_False by done.
    rewrite decide_False by (intros Hn; by apply Hn). by rewrite IH.
  - rewrite bool_decide_eq_false_2, decide_True by done.
    rewrite decide_True by done. cbn. by rewrite IH.
Qed.

(** when every call has returned, whatever the schedule was, each counter
    holds the number of calls made on it and both locks are free *)
Lemma interleaved_counts es sched s' :
  run sched (spawn es) = Some s' → all_done s' →
  m_value (accept_counter s') = Z.of_nat (count is_accept es) ∧
  m_value (connect_counter s') = Z.of_nat (count (λ e, ¬ is_accept e) es) ∧
  m_lock (accept_counter s') = false ∧
  m_lock (connect_counter s') = false.
Proof.
  intros Hrun Hdone.
  pose proof (run_invariant _ _ _ (spawn_invariant es) Hrun) as Hinv.
  pose proof (run_targets _ _ _ Hrun) as Htargets.
  assert (Hfree : ∀ c, tally (holds_lock c) (calls s') = 0).
  { intros c. apply tally_zero. eapply Forall_impl; [exact Hdone|].
    intros [c0 p] Hp. cbn in Hp. subst p. unfold holds_lock. cbn.
    by destruct (bool_decide _). }
  destruct (Hinv true) as (Hl1 & Hv1 & _), (Hinv false) as (Hl2 & Hv2 & _).
  rewrite Hfree in Hl1, Hl2.
  rewrite tally_all_done, Htargets, spawn_targets in Hv1, Hv2 by done.
  cbn [ctr] in *.
  repeat split; try done.
  - by destruct (m_lock (accept_counter s')).
  - by destruct (m_lock (connect_counter s')).
Qed.

Lemma step_progress i s s' :
  step i s = Some s' →
  tally progress (calls s') = tally progress (calls s) + 1 ∧
  length (calls s') = length (calls s).
Proof.
  intros (th & p & x & Hth & -> & _ & Hcase)%step_inv.
  rewrite (tally_insert _ _ _ th), length_insert by done.
  split; [|done]. unfold progress. cbn [at_pc].
  destruct (at_pc th); try done.
  - destruct Hcase as (_ & -> & _). lia.
  - destruct Hcase as (-> & _). lia.
  - destruct Hcase as (-> & _). lia.
  - destruct Hcase as (-> & _). lia.
Qed.

Lemma progress_bound ths :
  tally progress ths ≤ 4 * Z.of_nat (length ths) ∧
  (tally progress ths = 4 * Z.of_nat (length ths) →
   Forall (λ th, at_pc th = Done) ths).
Proof.
  induction ths as [|th ths [IH1 IH2]]; [done|].
  rewrite tally_cons. cbn [length].
  assert (Hth : 0 ≤ progress th ≤ 4 ∧ (progress th = 4 → at_pc th = Done))
    by (unfold progress; destruct (at_pc th); split; (lia || done)).
  split; [lia|]. intros Heq. apply Forall_cons_2.
  - apply Hth. lia.
  - apply IH2. lia.
Qed.

Lemma tally_pos_exists f ths :
  tally f ths ≠ 0 → ∃ j th, ths !! j = Some th ∧ f th ≠ 0.
Proof.
  induction ths as [|a ths IH]; [done|]. rewrite tally_cons. intros H.
  destruct (decide (f a = 0)) as [Ha|Ha].
  - destruct IH as (j & th & Hj & Hf); [lia|]. by exists (S j), th.
  - by exists 0%nat, a.
Qed.

(** a call that is inside [__add__] can always take its next step *)
Lemma holder_steps s c j th :
  calls s !! j = Some th → holds_lock c th ≠ 0 → ∃ s', step j s = Some s'.
Proof.
  intros Hj Hh. unfold step. rewrite Hj. cbn.
  unfold holds_lock in Hh. destruct (bool_decide _); [|done].
  destruct (at_pc th); try done; by eexists.
Qed.

(** no deadlock: while some call has not returned, some call can step *)
Lemma deadlock_free s :
  invariant s → ¬ all_done s → ∃ i s', step i s = Some s'.
Proof.
  intros Hinv Hnot.
  assert (Hdec : ∀ th, Decision (at_pc th = Done))
    by (intros th; destruct (at_pc th); (by left) || (by right)).
  apply not_Forall_Exists in Hnot; [|done].
  apply Exists_exists in Hnot as (th & Hin & Hpc). cbn in Hpc.
  apply list_elem_of_lookup in Hin as [i Hi].
  destruct (at_pc th) eqn:Hp; try done.
  - destruct (m_lock (ctr (on_accept th) s)) eqn:Hlock.
    + destruct (Hinv (on_accept th)) as (Hl & _ & _). rewrite Hlock in Hl.
      destruct (tally_pos_exists (holds_lock (on_accept th)) (calls s))
        as (j & thj & Hj & Hh); [lia|].
      exists j. by eapply holder_steps.
    + exists i. unfold step. rewrite Hi. cbn. rewrite Hp, Hlock. by eexists.
  - exists i. unfold step. rewrite Hi. cbn. rewrite Hp. by eexists.
  - exists i. unfold step. rewrite Hi. cbn. rewrite Hp. by eexists.
  - exists i. unfold step. rewrite Hi. cbn. rewrite Hp. by eexists.
Qed.

Lemma all_done_dec s : Decision (all_done s).
Proof.
  apply Forall_dec. intros th. destruct (at_pc th); (by left) || (by right).
Qed.

Lemma can_complete (n : nat) s :
  invariant s →
  4 * Z.of_nat (length (calls s)) - tally progress (calls s) = Z.of_nat n →
  ∃ sched s', run sched s = Some s' ∧ all_done s'.
Proof.
  revert s. induction n as [|n IH]; intros s Hinv Hn.
  - exists [], s. split; [done|]. apply progress_bound. lia.
  - destruct (all_done_dec s) as [Hd|Hd]; [by exists [], s|].
    destruct (deadlock_free s Hinv Hd) as (i & s1 & Hstep).
    destruct (step_progress i s s1 Hstep) as [Hp Hlen].
    destruct (IH s1) as (sched & s' & Hrun & Hdone).
    + by eapply step_invariant.
    + rewrite Hp, Hlen. lia.
    + exists (i :: sched), s'. cbn. by rewrite Hstep.
Qed.

(** the calls complete: every run of the calls for [es] can be continued
    until all of them have returned *)
Lemma interleaved_complete es sched s :
  run sched (spawn es) = Some s →
  ∃ sched' s', run (sched ++ sched') (spawn es) = Some s' ∧ all_done s'.
Proof.
  intros Hrun.
  pose proof (run_invariant _ _ _ (spawn_invariant es) Hrun) as Hinv.
  pose proof (progress_bound (calls s)) as [Hb _].
  destruct (can_complete
              (Z.to_nat (4 * Z.of_nat (length (calls s)) -
                         tally progress (calls s))) s Hinv)
    as (sched' & s' & Hrun' & Hdone); [lia|].
  exists sched', s'. rewrite run_app, Hrun. done.
Qed.
End interleaved.

Lemma app_empty_r (s : string) : s +:+ "" = s.
Proof.
  induction s as [|c s IH]; [done|].
  change (String c (s +:+ "") = String c s). by rewrite IH.
Qed.

Lemma app_assoc_s (s1 s2 s3 : string) : (s1 +:+ s2) +:+ s3 = s1 +:+ s2 +:+ s3.
Proof.
  induction s1 as [|c s1 IH]; [done|].
  change (String c ((s1 +:+ s2) +:+ s3) = String c (s1 +:+ s2 +:+ s3)).
  by rewrite IH.
Qed.

(** a format that ends in [%s] leaves its last argument at the end *)
Ltac format_ending_in last :=
  rewrite <- (app_empty_r last) at 2; vm_compute; reflexivity.

Lemma format_line (tot accpt conn : string) :
  format Events_Statics.line [tot; accpt; conn] =
  Ok ("===== Events count =====" +:+ nl +:+ "tot: " +:+ tot +:+ " " +:+ nl +:+
      "accpt: " +:+ accpt +:+ " " +:+ nl +:+ "conn: " +:+ conn).
Proof. format_ending_in conn. Qed.

Lemma summary_format (tot accpt conn : Z) :
  format Events_Statics.line [pretty tot; pretty accpt; pretty conn] =
  Ok (summary tot accpt conn).
Proof. apply format_line. Qed.

(** C7: in every state of the aggregator the summary is the header line
    followed by the total (the sum of the two counters), the value of the
    accept counter and the value of the connect counter, in this order. *)
Theorem summary_shows_total_accept_connect (s : Events_Statics.t) :
  Events_Statics.__str__ s =
  Ok ("===== Events count =====" +:+
      String "010"
        ("tot: " +:+
         pretty (AtomicInteger.m_value (Events_Statics.accept_counter s) +
                 AtomicInteger.m_value (Events_Statics.connect_counter s)) +:+
         " " +:+
         String "010"
           ("accpt: " +:+
            pretty (AtomicInteger.m_value (Events_Statics.accept_counter s)) +:+
            " " +:+
            String "010"
              ("conn: " +:+
               pretty (AtomicInteger.m_value
                         (Events_Statics.connect_counter s)))))).
Proof.
  unfold Events_Statics.__str__, AtomicInteger.get.
  rewrite summary_format. reflexivity.
Qed.

(** C10: every call of [add] raises exactly one counter by exactly one, the
    accept counter for kind 601 and the connect counter for every other
    value of the kind; after the calls for [es] the two counters sum to the
    number of calls, and no call lowers a counter. *)
Theorem add_increments_exactly_one (s : Events_Statics.t) (e : kernel_data.t)
    (es : list kernel_data.t) :
  (kernel_data.etype e = 601 →
     accepts (Events_Statics.add s e) = accepts s + 1 ∧
     connects (Events_Statics.add s e) = connects s) ∧
  (kernel_data.etype e ≠ 601 →
     accepts (Events_Statics.add s e) = accepts s ∧
     connects (Events_Statics.add s e) = connects s + 1) ∧
  accepts (add_all Events_Statics.__init__ es) +
    connects (add_all Events_Statics.__init__ es) = Z.of_nat (length es) ∧
  accepts s ≤ accepts (Events_Statics.add s e) ∧
  connects s ≤ connects (Events_Statics.add s e).
Proof.
  split; [apply add_accept|]. split; [apply add_other|]. split.
  - rewrite accepts_add_all, connects_add_all.
    pose proof (count_split es). unfold accepts, connects; simpl. lia.
  - destruct (decide (is_accept e)) as [He|He].
    + destruct (add_accept s e He) as [-> ->]. lia.
    + destruct (add_other s e He) as [-> ->]. lia.
Qed.

Lemma add_increments_exactly_one_witness :
  accepts (Events_Statics.add Events_Statics.__init__ (event_of_kind 601)) =
    accepts Events_Statics.__init__ + 1 ∧
  connects (Events_Statics.add Events_Statics.__init__ (event_of_kind 601)) =
    connects Events_Statics.__init__.
Proof.
  exact (proj1 (add_increments_exactly_one Events_Statics.__init__
                  (event_of_kind 601) []) eq_refl).
Defined.

(** C5: after [add] has been called for each of N events, k of kind 601 and
    N-k of kind 602, in any order, the accept counter is k, the connect
    counter is N-k and the summary shows N, k and N-k; each single call
    raises the accept counter when the kind is 601 and the connect counter
    otherwise.  The same counts are reached when the calls run interleaved
    step by step under the locks of the counters, and every such run can be
    continued until all the calls have returned. *)
Theorem counters_after_adds (es : list kernel_data.t) (k : nat) :
  Forall (λ e, kernel_data.etype e = 601 ∨ kernel_data.etype e = 602) es →
  count is_accept es = k →
  let s := add_all Events_Statics.__init__ es in
  count is_connect es = (length es - k)%nat ∧
  accepts s = Z.of_nat k ∧
  connects s = Z.of_nat (length es - k) ∧
  Events_Statics.__str__ s =
    Ok (summary (Z.of_nat k + Z.of_nat (length es - k))
          (Z.of_nat k) (Z.of_nat (length es - k))) ∧
  (∀ es', es' ≡ₚ es → add_all Events_Statics.__init__ es' = s) ∧
  (∀ s0 e, accepts (Events_Statics.add s0 e) =
             accepts s0 + (if decide (kernel_data.etype e = 601) then 1 else 0) ∧
           connects (Events_Statics.add s0 e) =
             connects s0 + (if decide (kernel_data.etype e = 601) then 0 else 1)) ∧
  (∀ sched s1, Interleaved.run sched (Interleaved.spawn es) = Some s1 →
     ∃ sched' s', Interleaved.run (sched ++ sched') (Interleaved.spawn es) =
                    Some s' ∧ Interleaved.all_done s') ∧
  (∀ sched s', Interleaved.run sched (Interleaved.spawn es) = Some s' →
     Interleaved.all_done s' →
     Interleaved.m_value (Interleaved.accept_counter s') = Z.of_nat k ∧
     Interleaved.m_value (Interleaved.connect_counter s') =
       Z.of_nat (length es - k)).
Proof.
  intros Hkinds Hk s.
  pose proof (count_split es) as Hsplit.
  pose proof (count_not_accept es Hkinds) as Hconn.
  assert (Ha : accepts s = Z.of_nat k).
  { subst s. rewrite accepts_add_all. unfold accepts; simpl. lia. }
  assert (Hc : connects s = Z.of_nat (length es - k)).
  { subst s. rewrite connects_add_all. unfold connects; simpl. lia. }
  split; [lia|]. split; [done|]. split; [done|]. split.
  - unfold Events_Statics.__str__. fold (accepts s) (connects s).
    by rewrite summary_format, Ha, Hc.
  - split; [intros es' Hp; by apply add_all_perm|]. split; [|split].
    + intros s0 e. destruct (decide (kernel_data.etype e = 601)) as [He|He].
      * destruct (add_accept s0 e He) as [-> ->]. lia.
      * destruct (add_other s0 e He) as [-> ->]. lia.
    + intros sched s1. apply interleaved_complete.
    + intros sched s' Hrun Hdone.
      destruct (interleaved_counts es sched s' Hrun Hdone) as (-> & -> & _).
      split; f_equal; lia.
Qed.

Lemma counters_after_adds_witness :
  count is_accept [event_of_kind 602; event_of_kind 601; event_of_kind 602] =
    1%nat ∧
  Events_Statics.__str__
    (add_all Events_Statics.__init__
       [event_of_kind 602; event_of_kind 601; event_of_kind 602]) =
  Ok (summary 3 1 2).
Proof.
  split; [reflexivity|].
  refine (proj1 (proj2 (proj2 (proj2
            (counters_after_adds
               [event_of_kind 602; event_of_kind 601; event_of_kind 602]
               1 _ _))))).
  - repeat first [apply Forall_nil_2 | apply Forall_cons_2; [vm_compute; auto|]].
  - reflexivity.
Defined.

(** ** Raw memory *)

Lemma byte_val_range (b : Byte.byte) : 0 ≤ byte_val b < 256.
Proof. unfold byte_val. pose proof (Byte.to_N_bounded b). lia. Qed.

Lemma byte_of_Z_val (b : Byte.byte) (r : Z) :
  byte_of_Z (byte_val b + 256 * r) = b.
Proof.
  unfold byte_of_Z. pose proof (byte_val_range b) as Hb.
  replace ((byte_val b + 256 * r) mod 256) with (byte_val b).
  - unfold byte_val. by rewrite N2Z.id, Byte.of_to_N.
  - rewrite (Z.mul_comm 256 r), Z_mod_plus_full. by rewrite Z.mod_small.
Qed.

Lemma uint_le_range (bs : list Byte.byte) :
  0 ≤ uint_le bs < 256 ^ Z.of_nat (length bs).
Proof.
  induction bs as [|b bs IH]; simpl; [lia|].
  pose proof (byte_val_range b).
  rewrite Nat2Z.inj_succ, Z.pow_succ_r by lia. lia.
Qed.

Lemma c_uint_range (host : byteorder) (bs : list Byte.byte) :
  0 ≤ c_uint host bs < 256 ^ Z.of_nat (length bs).
Proof.
  destruct host; simpl; [apply uint_le_range|].
  rewrite <- (length_reverse bs). apply uint_le_range.
Qed.

Lemma bytes_le_uint_le (bs : list Byte.byte) :
  bytes_le (length bs) (uint_le bs) = bs.
Proof.
  induction bs as [|b bs IH]; simpl; [done|].
  rewrite byte_of_Z_val. f_equal.
  pose proof (byte_val_range b).
  replace ((byte_val b + 256 * uint_le bs) / 256) with (uint_le bs); [done|].
  rewrite Z.add_comm, Z.mul_comm, Z_div_plus_full_l by lia.
  rewrite Z.div_small by lia. lia.
Qed.

(** packing an unsigned 32-bit field gives back the four bytes it was read
    from, whatever the byte order of the host *)
Lemma pack_I_c_uint (host : byteorder) (bs : list Byte.byte) :
  length bs = 4%nat → pack_I host (c_uint host bs) = Ok bs.
Proof.
  intros Hlen. unfold pack_I.
  pose proof (c_uint_range host bs) as Hr. rewrite Hlen in Hr.
  rewrite decide_True by (change (256 ^ Z.of_nat 4) with (2 ^ 32) in Hr; lia).
  f_equal. destruct host; unfold c_uint.
  - by rewrite <- Hlen, bytes_le_uint_le.
  - rewrite <- (length_reverse bs) in Hlen.
    by rewrite <- Hlen, bytes_le_uint_le, reverse_involutive.
Qed.

Lemma length_field (off len : nat) (data : list Byte.byte) :
  (off + len ≤ length data)%nat → length (field off len data) = len.
Proof. intros H. unfold field. rewrite length_take, length_drop. lia. Qed.

Lemma field_field (off1 len1 off2 len2 : nat) (data : list Byte.byte) :
  (off2 + len2 ≤ len1)%nat →
  field off2 len2 (field off1 len1 data) = field (off1 + off2) len2 data.
Proof.
  intros H. unfold field.
  rewrite skipn_firstn_comm, take_take, drop_drop.
  f_equal. lia.
Qed.

Lemma field_take (off len n : nat) (data : list Byte.byte) :
  (off + len ≤ n)%nat → field off len (take n data) = field off len data.
Proof.
  intros H. unfold field. rewrite skipn_firstn_comm, take_take. f_equal. lia.
Qed.

Lemma inet_ntop_four (bs : list Byte.byte) :
  length bs = 4%nat → ∃ s, inet_ntop bs = Ok s.
Proof.
  destruct bs as [|a [|b [|c [|d [|e bs]]]]]; try done. intros _. by eexists.
Qed.

(** ** The formatter *)

Lemma format_ltask (ktime gid uid pid comm : string) :
  format kernel_data._ltask [ktime; gid; uid; pid; comm] =
  Ok ("[ktime: " +:+ ktime +:+ "][gid: " +:+ gid +:+ "][uid: " +:+ uid +:+
      "][pid: " +:+ pid +:+ "][" +:+ comm +:+ "]").
Proof. vm_compute. reflexivity. Qed.

Lemma format_lparent (gid uid pid comm : string) :
  format kernel_data._lparent [gid; uid; pid; comm] =
  Ok ("parent: [gid: " +:+ gid +:+ "][uid: " +:+ uid +:+
      "][pid: " +:+ pid +:+ "][" +:+ comm +:+ "]").
Proof. vm_compute. reflexivity. Qed.

Lemma format_lnetinfo (label src sport dst dport : string) :
  format kernel_data._lnetinfo [label; src; sport; dst; dport] =
  Ok ("netinfo: [" +:+ label +:+ "][IPv4][" +:+ src +:+ ":" +:+ sport +:+
      " <-> " +:+ dst +:+ ":" +:+ dport +:+ "]").
Proof. vm_compute. reflexivity. Qed.

Lemma format_lcgroup (dockerid : string) :
  format kernel_data._lcgroup [dockerid] =
  Ok ("container: [dockerid: " +:+ dockerid +:+ "]").
Proof. vm_compute. reflexivity. Qed.

Lemma etype2str_accept (k : kernel_data.t) :
  kernel_data.etype k = 601 → kernel_data.etype2str k = Ok "TCP/ACC".
Proof. unfold kernel_data.etype2str. by intros ->. Qed.

Lemma etype2str_connect (k : kernel_data.t) :
  kernel_data.etype k = 602 → kernel_data.etype2str k = Ok "TCP/CONN".
Proof. unfold kernel_data.etype2str. by intros ->. Qed.

Lemma etype2str_unknown (k : kernel_data.t) :
  kernel_data.etype k ≠ 601 → kernel_data.etype k ≠ 602 →
  kernel_data.etype2str k = Raise (KeyError (kernel_data.etype k)).
Proof.
  intros H1 H2. unfold kernel_data.etype2str, kernel_data._etype_table.
  rewrite lookup_insert_ne by done. by rewrite lookup_singleton_ne.
Qed.

Lemma etype2str_valid (k : kernel_data.t) :
  kernel_data.etype k = 601 ∨ kernel_data.etype k = 602 →
  kernel_data.etype2str k =
  Ok (if decide (kernel_data.etype k = 601) then "TCP/ACC" else "TCP/CONN").
Proof.
  intros [H|H].
  - rewrite decide_True by done. by apply etype2str_accept.
  - rewrite decide_False by lia. by apply etype2str_connect.
Qed.

(** the lines of a record whose kind has a label and whose addresses can be
    packed *)
Lemma lines_labelled (host : byteorder) (NO_TRUNC : bool) (k : kernel_data.t)
    (label src dst : string) :
  kernel_data.etype2str k = Ok label →
  pack_I host (net_info4.saddr (kernel_data.net4 k)) ≫= inet_ntop = Ok src →
  pack_I host (net_info4.daddr (kernel_data.net4 k)) ≫= inet_ntop = Ok dst →
  kernel_data.lines host NO_TRUNC k =
  Ok (["[ktime: " +:+ pretty (kernel_data.ktime k) +:+
       "][gid: " +:+ pretty (task_info.gid (kernel_data.task k)) +:+
       "][uid: " +:+ pretty (task_info.uid (kernel_data.task k)) +:+
       "][pid: " +:+ pretty (task_info.pid (kernel_data.task k)) +:+
       "][" +:+ task_info.task (kernel_data.task k) +:+ "]";
       "parent: [gid: " +:+ pretty (task_info.gid (kernel_data.ptask k)) +:+
       "][uid: " +:+ pretty (task_info.uid (kernel_data.ptask k)) +:+
       "][pid: " +:+ pretty (task_info.pid (kernel_data.ptask k)) +:+
       "][" +:+ task_info.task (kernel_data.ptask k) +:+ "]";
       "netinfo: [" +:+ label +:+ "][IPv4][" +:+
       src +:+ ":" +:+ pretty (net_info4.loc_port (kernel_data.net4 k)) +:+
       " <-> " +:+
       dst +:+ ":" +:+ pretty (net_info4.dst_port (kernel_data.net4 k)) +:+
       "]"] ++
      if decide (task_info.cgroup (kernel_data.task k) = "/") then []
      else ["container: [dockerid: " +:+
            (if NO_TRUNC then task_info.cgroup (kernel_data.task k)
             else slice_to 12 (task_info.cgroup (kernel_data.task k))) +:+
            "]"]).
Proof.
  intros Hlabel Hsrc Hdst. unfold kernel_data.lines.
  rewrite format_ltask, format_lparent, Hlabel. cbn [mbind result_bind].
  rewrite Hsrc, Hdst. cbn [mbind result_bind].
  rewrite format_lnetinfo. cbn [mbind result_bind].
  destruct (decide (task_info.cgroup (kernel_data.task k) = "/")) as [Hroot|Hroot].
  - by rewrite decide_False by (intros Hne; by apply Hne).
  - rewrite decide_True by done.
    by rewrite format_lcgroup.
Qed.

Lemma cast_contents_Some (host : byteorder) (data : list Byte.byte)
    (k : kernel_data.t) :
  cast_contents host data = Some k ↔
  (kernel_data.sizeof ≤ length data)%nat ∧ k = kernel_data.read host data.
Proof.
  unfold cast_contents. destruct (decide _) as [Hle|Hlt].
  - split; [by intros [= <-] | by intros [_ ->]].
  - split; [done | by intros [? _]].
Qed.

(** where the fields of the nested structures lie in the buffer *)
Lemma read_offsets (host : byteorder) (data : list Byte.byte) :
  let k := kernel_data.read host data in
  task_info.cgroup_chars (kernel_data.task k) = field 28 64 data ∧
  task_info.task_chars (kernel_data.task k) = field 92 16 data ∧
  net_info4.loc_port (kernel_data.net4 k) = c_uint host (field 204 2 data) ∧
  net_info4.dst_port (kernel_data.net4 k) = c_uint host (field 206 2 data) ∧
  net_info4.saddr (kernel_data.net4 k) = c_uint host (field 208 4 data) ∧
  net_info4.daddr (kernel_data.net4 k) = c_uint host (field 212 4 data).
Proof.
  cbn [kernel_data.read kernel_data.task kernel_data.net4 task_info.read
       net_info4.read task_info.cgroup_chars task_info.task_chars
       net_info4.loc_port net_info4.dst_port net_info4.saddr net_info4.daddr].
  unfold task_info.sizeof, net_info4.sizeof, CGROUP_NAME, TASK_COMM_LEN.
  by rewrite !field_field by lia.
Qed.

(** the lines of a decoded record of kind 601 or 602 *)
Lemma lines_decoded (host : byteorder) (NO_TRUNC : bool)
    (data : list Byte.byte) (k : kernel_data.t) :
  cast_contents host data = Some k →
  kernel_data.etype k = 601 ∨ kernel_data.etype k = 602 →
  ∃ src dst,
    inet_ntop (field 208 4 data) = Ok src ∧
    inet_ntop (field 212 4 data) = Ok dst ∧
    kernel_data.lines host NO_TRUNC k =
    Ok (["[ktime: " +:+ pretty (kernel_data.ktime k) +:+
         "][gid: " +:+ pretty (task_info.gid (kernel_data.task k)) +:+
         "][uid: " +:+ pretty (task_info.uid (kernel_data.task k)) +:+
         "][pid: " +:+ pretty (task_info.pid (kernel_data.task k)) +:+
         "][" +:+ task_info.task (kernel_data.task k) +:+ "]";
         "parent: [gid: " +:+ pretty (task_info.gid (kernel_data.ptask k)) +:+
         "][uid: " +:+ pretty (task_info.uid (kernel_data.ptask k)) +:+
         "][pid: " +:+ pretty (task_info.pid (kernel_data.ptask k)) +:+
         "][" +:+ task_info.task (kernel_data.ptask k) +:+ "]";
         "netinfo: [" +:+
         (if decide (kernel_data.etype k = 601) then "TCP/ACC"
          else "TCP/CONN") +:+
         "][IPv4][" +:+
         src +:+ ":" +:+ pretty (c_uint host (field 204 2 data)) +:+
         " <-> " +:+
         dst +:+ ":" +:+ pretty (c_uint host (field 206 2 data)) +:+ "]"] ++
        if decide (task_info.cgroup (kernel_data.task k) = "/") then []
        else ["container: [dockerid: " +:+
              (if NO_TRUNC then task_info.cgroup (kernel_data.task k)
               else slice_to 12 (task_info.cgroup (kernel_data.task k))) +:+
              "]"]).
Proof.
  intros [Hsize ->]%cast_contents_Some Hkind.
  unfold kernel_data.sizeof in Hsize.
  destruct (read_offsets host data) as (_ & _ & Hlp & Hdp & Hsa & Hda).
  destruct (inet_ntop_four (field 208 4 data)) as [src Hsrc];
    [apply length_field; lia|].
  destruct (inet_ntop_four (field 212 4 data)) as [dst Hdst];
    [apply length_field; lia|].
  exists src, dst. split; [done|]. split; [done|].
  rewrite <- Hlp, <- Hdp.
  apply lines_labelled.
  - by apply etype2str_valid.
  - rewrite Hsa, pack_I_c_uint by (apply length_field; lia). apply Hsrc.
  - rewrite Hda, pack_I_c_uint by (apply length_field; lia). apply Hdst.
Qed.

(** ** Strings of the record *)

Lemma until_nul_app (s rest : list Byte.byte) :
  Byte.x00 ∉ s → until_nul (s ++ Byte.x00 :: rest) = s.
Proof.
  induction s as [|b s IH]; intros Hs; [done|].
  apply not_elem_of_cons in Hs as [Hb Hs]. cbn [app until_nul].
  destruct (Byte.eqb b Byte.x00) eqn:Heq.
  - apply Byte.byte_dec_bl in Heq. by destruct Hb.
  - by rewrite IH.
Qed.

Lemma until_nul_split (bs : list Byte.byte) :
  (Byte.x00 ∉ until_nul bs) ∧
  (bs = until_nul bs ∨ ∃ rest, bs = until_nul bs ++ Byte.x00 :: rest).
Proof.
  induction bs as [|b bs [IH1 IH2]]; cbn [until_nul].
  - split; [apply not_elem_of_nil | by left].
  - destruct (Byte.eqb b Byte.x00) eqn:Heq.
    + apply Byte.byte_dec_bl in Heq as ->.
      split; [apply not_elem_of_nil | right; by exists bs].
    + split.
      * apply not_elem_of_cons. split; [|done].
        intros <-. by rewrite (Byte.byte_dec_lb eq_refl) in Heq.
      * destruct IH2 as [IH2|[rest IH2]].
        -- left. by rewrite <- IH2.
        -- right. exists rest. cbn [app]. by rewrite <- IH2.
Qed.

Lemma c_char_array_bytes (bs : list Byte.byte) :
  list_byte_of_string (c_char_array bs) = until_nul bs.
Proof. unfold c_char_array. apply list_byte_of_string_of_list_byte. Qed.

Lemma read_offsets_parent (host : byteorder) (data : list Byte.byte) :
  let k := kernel_data.read host data in
  task_info.cgroup_chars (kernel_data.ptask k) = field 120 64 data ∧
  task_info.task_chars (kernel_data.ptask k) = field 184 16 data.
Proof.
  cbn [kernel_data.read kernel_data.ptask task_info.read
       task_info.cgroup_chars task_info.task_chars].
  unfold task_info.sizeof, CGROUP_NAME, TASK_COMM_LEN.
  by rewrite !field_field by lia.
Qed.

Lemma c_char_array_field (off len : nat) (data : list Byte.byte) :
  (off + len ≤ length data)%nat →
  (Byte.x00 ∉ list_byte_of_string (c_char_array (field off len data))) ∧
  (field off len data = list_byte_of_string (c_char_array (field off len data)) ∨
   ∃ rest, field off len data =
           list_byte_of_string (c_char_array (field off len data)) ++
           Byte.x00 :: rest) ∧
  (String.length (c_char_array (field off len data)) ≤ len)%nat.
Proof.
  intros Hlen. rewrite c_char_array_bytes.
  destruct (until_nul_split (field off len data)) as [Hnul Hsplit].
  split; [done|]. split; [done|].
  assert (Hl : (length (until_nul (field off len data)) ≤ len)%nat).
  { pose proof (length_field off len data Hlen) as Hf.
    destruct Hsplit as [Heq|[rest Heq]]; rewrite Heq in Hf.
    - lia.
    - rewrite length_app in Hf. lia. }
  unfold c_char_array.
  replace (String.length (string_of_list_byte (until_nul (field off len data))))
    with (length (until_nul (field off len data))); [done|].
  generalize (until_nul (field off len data)). intros l.
  induction l as [|b l IH]; [done|]. cbn. by rewrite IH.
Qed.

(** ** The text of a block *)

(** what [inet_ntop] makes of four bytes *)
Lemma inet_ntop_quad (bs : list Byte.byte) :
  length bs = 4%nat →
  ∃ b0 b1 b2 b3,
    bs = [b0; b1; b2; b3] ∧
    inet_ntop bs =
    Ok (pretty (Z.of_N (Byte.to_N b0)) +:+ "." +:+
        pretty (Z.of_N (Byte.to_N b1)) +:+ "." +:+
        pretty (Z.of_N (Byte.to_N b2)) +:+ "." +:+
        pretty (Z.of_N (Byte.to_N b3))).
Proof.
  destruct bs as [|b0 [|b1 [|b2 [|b3 [|? ?]]]]]; try done. intros _.
  by exists b0, b1, b2, b3.
Qed.

(** the block of a decoded record of kind 601 or 602 as one text, with the
    two addresses as [inet_ntop] gives them *)
Lemma str_decoded_block (host : byteorder) (NO_TRUNC : bool)
    (data : list Byte.byte) (k : kernel_data.t) :
  cast_contents host data = Some k →
  kernel_data.etype k = 601 ∨ kernel_data.etype k = 602 →
  ∃ src dst,
    inet_ntop (take 4 (drop 208 data)) = Ok src ∧
    inet_ntop (take 4 (drop 212 data)) = Ok dst ∧
    kernel_data.__str__ host NO_TRUNC k =
    Ok (("[ktime: " +:+ pretty (kernel_data.ktime k) +:+
         "][gid: " +:+ pretty (task_info.gid (kernel_data.task k)) +:+
         "][uid: " +:+ pretty (task_info.uid (kernel_data.task k)) +:+
         "][pid: " +:+ pretty (task_info.pid (kernel_data.task k)) +:+
         "][" +:+ task_info.task (kernel_data.task k) +:+ "]" +:+
         String "010" "|__parent: [gid: " +:+
         pretty (task_info.gid (kernel_data.ptask k)) +:+
         "][uid: " +:+ pretty (task_info.uid (kernel_data.ptask k)) +:+
         "][pid: " +:+ pretty (task_info.pid (kernel_data.ptask k)) +:+
         "][" +:+ task_info.task (kernel_data.ptask k) +:+ "]" +:+
         String "010" "|__netinfo: [" +:+
         (if decide (kernel_data.etype k = 601) then "TCP/ACC"
          else "TCP/CONN") +:+
         "][IPv4][" +:+ src +:+ ":" +:+
         pretty (net_info4.loc_port (kernel_data.net4 k)) +:+ " <-> " +:+
         dst +:+ ":" +:+
         pretty (net_info4.dst_port (kernel_data.net4 k)) +:+ "]") +:+
        (if decide (task_info.cgroup (kernel_data.task k) = "/") then ""
         else String "010" "|__container: [dockerid: " +:+
              (if NO_TRUNC then task_info.cgroup (kernel_data.task k)
               else substring 0 12 (task_info.cgroup (kernel_data.task k))) +:+
              "]")).
Proof.
  intros Hk Hkind.
  destruct (lines_decoded host NO_TRUNC data k Hk Hkind)
    as (src & dst & Hsrc & Hdst & Hlines).
  pose proof Hk as [_ Hread]%cast_contents_Some.
  exists src, dst. split; [done|]. split; [done|].
  unfold kernel_data.__str__. rewrite Hlines. cbn [mbind result_bind].
  assert (Hlp : net_info4.loc_port (kernel_data.net4 k) =
                c_uint host (field 204 2 data)).
  { rewrite Hread. apply read_offsets. }
  assert (Hdp : net_info4.dst_port (kernel_data.net4 k) =
                c_uint host (field 206 2 data)).
  { rewrite Hread. apply read_offsets. }
  rewrite <- Hlp, <- Hdp. f_equal. unfold slice_to.
  destruct (decide (task_info.cgroup (kernel_data.task k) = "/"));
    cbn [app join]; rewrite !app_assoc_s, ?app_empty_r; reflexivity.
Qed.

(** ** Occurrences of a text in a block *)

Section occurrences.
Context {A : Type}.
Implicit Types (l P X Y pre post : list A) (c : A).

(** an occurrence of [P] in [X ++ c :: Y], where [c] is not in [P], lies in
    [X] or in [Y] *)
Lemma occurrence_split P X Y c pre post :
  c ∉ P → X ++ c :: Y = pre ++ P ++ post →
  (∃ pre' post', X = pre' ++ P ++ post') ∨
  (∃ pre' post', Y = pre' ++ P ++ post').
Proof.
  intros Hc Heq. apply app_eq_inv in Heq as [(k & -> & Heq)|(k & -> & Heq)].
  - left. symmetry in Heq.
    apply app_eq_inv in Heq as [(k' & -> & Heq)|(k' & -> & Heq)].
    + exists pre. exists k'. done.
    + destruct k' as [|a k'].
      * exists pre, []. by rewrite !app_nil_r.
      * injection Heq as -> _. destruct Hc. set_solver.
  - destruct k as [|a k].
    + destruct P as [|a P].
      * left. exists X, []. by rewrite !app_nil_r.
      * injection Heq as -> _. destruct Hc. set_solver.
    + injection Heq as -> ->. right. by exists k, post.
Qed.

Lemma free_split P X Y c :
  c ∉ P →
  (∀ pre post, X ≠ pre ++ P ++ post) →
  (∀ pre post, Y ≠ pre ++ P ++ post) →
  ∀ pre post, X ++ c :: Y ≠ pre ++ P ++ post.
Proof.
  intros Hc HX HY pre post Heq.
  destruct (occurrence_split P X Y c pre post Hc Heq)
    as [(pre' & post' & H)|(pre' & post' & H)].
  - by eapply HX.
  - by eapply HY.
Qed.

Lemma free_without_first p P l :
  p ∉ l → ∀ pre post, l ≠ pre ++ (p :: P) ++ post.
Proof. intros Hp pre post ->. destruct Hp. set_solver. Qed.

Lemma free_short P l :
  (length l < length P)%nat → ∀ pre post, l ≠ pre ++ P ++ post.
Proof. intros Hlen pre post ->. rewrite !length_app in Hlen. lia. Qed.
End occurrences.

Lemma list_ascii_app (s1 s2 : string) :
  list_ascii_of_string (s1 +:+ s2) =
  list_ascii_of_string s1 ++ list_ascii_of_string s2.
Proof.
  induction s1 as [|c s1 IH]; [done|].
  change (String c s1 +:+ s2) with (String c (s1 +:+ s2)).
  cbn [list_ascii_of_string app]. by rewrite IH.
Qed.

Lemma list_ascii_length (s : string) :
  length (list_ascii_of_string s) = String.length s.
Proof. induction s as [|c s IH]; [done|]. cbn. by rewrite IH. Qed.

(** a number is printed without the letter c *)
Lemma pretty_N_go_no_c (x : N) (s : string) :
  "c"%char ∉ list_ascii_of_string s →
  "c"%char ∉ list_ascii_of_string (pretty_N_go x s).
Proof.
  revert s. induction (N.lt_wf_0 x) as [x _ IH]. intros s Hs.
  destruct (decide (x = 0)%N) as [->|Hx].
  - by rewrite pretty_N_go_0.
  - rewrite pretty_N_go_step by lia. apply IH.
    + apply N.div_lt; lia.
    + cbn [list_ascii_of_string]. apply not_elem_of_cons. split; [|done].
      unfold pretty_N_char. by repeat case_match.
Qed.

Lemma pretty_Z_no_c (x : Z) : "c"%char ∉ list_ascii_of_string (pretty x).
Proof.
  assert (Hpos : ∀ p : positive,
            "c"%char ∉ list_ascii_of_string (pretty (Npos p))).
  { intros p. unfold pretty, pretty_N. rewrite decide_False by done.
    apply pretty_N_go_no_c. cbn. apply not_elem_of_nil. }
  destruct x as [|p|p]; unfold pretty, pretty_Z.
  - cbn. apply not_elem_of_cons. split; [done | apply not_elem_of_nil].
  - apply Hpos.
  - rewrite list_ascii_app. apply not_elem_of_app. split; [|apply Hpos].
    cbn. apply not_elem_of_cons. split; [done | apply not_elem_of_nil].
Qed.

(** a fixed text does not hold the character *)
Ltac not_in_text :=
  let H := fresh in
  cbn; intros H;
  repeat (apply elem_of_cons in H as [H|H]; [discriminate H|]);
  by apply elem_of_nil in H.

(** The three lines of a block hold no container line: the text that starts
    one occurs nowhere in them.  The lines are cut at their closing brackets,
    which the text does not hold; a piece with a command name is too short
    for it, and any other piece is without the letter c. *)
Lemma three_lines_without_container_chars
    (n1 n2 n3 n4 c1 n5 n6 n7 c2 label s0 s1 s2 s3 n8 d0 d1 d2 d3 n9
       : list ascii) :
  Forall (λ n, "c"%char ∉ n)
    [n1; n2; n3; n4; n5; n6; n7; s0; s1; s2; s3; n8; d0; d1; d2; d3; n9] →
  (length c1 ≤ 16)%nat → (length c2 ≤ 16)%nat →
  label = list_ascii_of_string "TCP/ACC" ∨
  label = list_ascii_of_string "TCP/CONN" →
  ∀ pre post,
    (list_ascii_of_string "[ktime: " ++ n1) ++ "]"%char ::
    (list_ascii_of_string "[gid: " ++ n2) ++ "]"%char ::
    (list_ascii_of_string "[uid: " ++ n3) ++ "]"%char ::
    (list_ascii_of_string "[pid: " ++ n4) ++ "]"%char ::
    (list_ascii_of_string "[" ++ c1) ++ "]"%char ::
    (list_ascii_of_string (String "010" "|__parent: [gid: ") ++ n5) ++
      "]"%char ::
    (list_ascii_of_string "[uid: " ++ n6) ++ "]"%char ::
    (list_ascii_of_string "[pid: " ++ n7) ++ "]"%char ::
    (list_ascii_of_string "[" ++ c2) ++ "]"%char ::
    (list_ascii_of_string (String "010" "|__netinfo: [") ++ label) ++
      "]"%char ::
    list_ascii_of_string "[IPv4" ++ "]"%char ::
    (list_ascii_of_string "[" ++ s0 ++ list_ascii_of_string "." ++ s1 ++
     list_ascii_of_string "." ++ s2 ++ list_ascii_of_string "." ++ s3 ++
     list_ascii_of_string ":" ++ n8 ++ list_ascii_of_string " <-> " ++
     d0 ++ list_ascii_of_string "." ++ d1 ++ list_ascii_of_string "." ++
     d2 ++ list_ascii_of_string "." ++ d3 ++ list_ascii_of_string ":" ++ n9) ++
      "]"%char :: []
    ≠ pre ++ list_ascii_of_string "container: [dockerid: " ++ post.
Proof.
  intros Hn Hc1 Hc2 Hlabel.
  repeat (apply Forall_cons_1 in Hn as [? Hn]).
  assert (Hbracket :
    "]"%char ∉ list_ascii_of_string "container: [dockerid: ") by not_in_text.
  repeat apply free_split; try exact Hbracket;
    try (apply free_short; rewrite ?length_app; cbn; lia);
    apply free_without_first; rewrite ?not_elem_of_app;
    repeat split; try assumption; try not_in_text.
  destruct Hlabel as [-> | ->]; not_in_text.
Qed.

Lemma three_lines_without_container
    (n1 n2 n3 n4 c1 n5 n6 n7 c2 label s0 s1 s2 s3 n8 d0 d1 d2 d3 n9 : string) :
  Forall (λ n, "c"%char ∉ list_ascii_of_string n)
    [n1; n2; n3; n4; n5; n6; n7; s0; s1; s2; s3; n8; d0; d1; d2; d3; n9] →
  (String.length c1 ≤ 16)%nat → (String.length c2 ≤ 16)%nat →
  label = "TCP/ACC" ∨ label = "TCP/CONN" →
  ∀ pre post : string,
    "[ktime: " +:+ n1 +:+ "][gid: " +:+ n2 +:+ "][uid: " +:+ n3 +:+
    "][pid: " +:+ n4 +:+ "][" +:+ c1 +:+ "]" +:+
    String "010" "|__parent: [gid: " +:+ n5 +:+ "][uid: " +:+ n6 +:+
    "][pid: " +:+ n7 +:+ "][" +:+ c2 +:+ "]" +:+
    String "010" "|__netinfo: [" +:+ label +:+ "][IPv4][" +:+
    s0 +:+ "." +:+ s1 +:+ "." +:+ s2 +:+ "." +:+ s3 +:+ ":" +:+ n8 +:+
    " <-> " +:+
    d0 +:+ "." +:+ d1 +:+ "." +:+ d2 +:+ "." +:+ d3 +:+ ":" +:+ n9 +:+ "]"
    ≠ pre +:+ "container: [dockerid: " +:+ post.
Proof.
  intros Hn Hc1 Hc2 Hlabel pre post Heq.
  apply (f_equal list_ascii_of_string) in Heq.
  rewrite !list_ascii_app in Heq.
  refine (three_lines_without_container_chars
            (list_ascii_of_string n1) (list_ascii_of_string n2)
            (list_ascii_of_string n3) (list_ascii_of_string n4)
            (list_ascii_of_string c1) (list_ascii_of_string n5)
            (list_ascii_of_string n6) (list_ascii_of_string n7)
            (list_ascii_of_string c2) (list_ascii_of_string label)
            (list_ascii_of_string s0) (list_ascii_of_string s1)
            (list_ascii_of_string s2) (list_ascii_of_string s3)
            (list_ascii_of_string n8)
            (list_ascii_of_string d0) (list_ascii_of_string d1)
            (list_ascii_of_string d2) (list_ascii_of_string d3)
            (list_ascii_of_string n9) _ _ _ _
            (list_ascii_of_string pre) (list_ascii_of_string post) _).
  - repeat (apply Forall_cons_1 in Hn as [? Hn]).
    repeat apply Forall_cons_2; try apply Forall_nil_2; assumption.
  - by rewrite list_ascii_length.
  - by rewrite list_ascii_length.
  - destruct Hlabel as [-> | ->]; [by left | by right].
  - rewrite <- Heq, <- !app_assoc. reflexivity.
Qed.

(** C8: the block of a decoded record of kind 601 or 602 is the task line
    (kernel time, gid, uid, pid, command name), the parent line (gid, uid,
    pid, command name), the network line (the label TCP/ACC for 601 and
    TCP/CONN for 602, the tag IPv4, local address:port, remote address:port)
    and, unless the cgroup is "/", the container line, in this order, joined
    by a newline followed by "|__".  The block is given as one text; the
    addresses are the dotted quads of bytes 208-211 and 212-215 of the
    buffer. *)
Theorem event_block_layout (host : byteorder) (NO_TRUNC : bool)
    (data : list Byte.byte) (k : kernel_data.t) :
  cast_contents host data = Some k →
  kernel_data.etype k = 601 ∨ kernel_data.etype k = 602 →
  ∃ s0 s1 s2 s3 d0 d1 d2 d3,
    take 4 (drop 208 data) = [s0; s1; s2; s3] ∧
    take 4 (drop 212 data) = [d0; d1; d2; d3] ∧
    kernel_data.__str__ host NO_TRUNC k =
    Ok (("[ktime: " +:+ pretty (kernel_data.ktime k) +:+
     "][gid: " +:+ pretty (task_info.gid (kernel_data.task k)) +:+
     "][uid: " +:+ pretty (task_info.uid (kernel_data.task k)) +:+
     "][pid: " +:+ pretty (task_info.pid (kernel_data.task k)) +:+
     "][" +:+ task_info.task (kernel_data.task k) +:+ "]" +:+
     String "010" "|__parent: [gid: " +:+
     pretty (task_info.gid (kernel_data.ptask k)) +:+
     "][uid: " +:+ pretty (task_info.uid (kernel_data.ptask k)) +:+
     "][pid: " +:+ pretty (task_info.pid (kernel_data.ptask k)) +:+
     "][" +:+ task_info.task (kernel_data.ptask k) +:+ "]" +:+
     String "010" "|__netinfo: [" +:+
     (if decide (kernel_data.etype k = 601) then "TCP/ACC" else "TCP/CONN") +:+
     "][IPv4][" +:+
     pretty (Z.of_N (Byte.to_N s0)) +:+ "." +:+
     pretty (Z.of_N (Byte.to_N s1)) +:+ "." +:+
     pretty (Z.of_N (Byte.to_N s2)) +:+ "." +:+
     pretty (Z.of_N (Byte.to_N s3)) +:+ ":" +:+
     pretty (net_info4.loc_port (kernel_data.net4 k)) +:+ " <-> " +:+
     pretty (Z.of_N (Byte.to_N d0)) +:+ "." +:+
     pretty (Z.of_N (Byte.to_N d1)) +:+ "." +:+
     pretty (Z.of_N (Byte.to_N d2)) +:+ "." +:+
     pretty (Z.of_N (Byte.to_N d3)) +:+ ":" +:+
     pretty (net_info4.dst_port (kernel_data.net4 k)) +:+ "]") +:+
        (if decide (task_info.cgroup (kernel_data.task k) = "/") then ""
         else String "010" "|__container: [dockerid: " +:+
              (if NO_TRUNC then task_info.cgroup (kernel_data.task k)
               else substring 0 12 (task_info.cgroup (kernel_data.task k))) +:+
              "]")).
Proof.
  intros Hk Hkind.
  destruct (str_decoded_block host NO_TRUNC data k Hk Hkind)
    as (src & dst & Hsrc & Hdst & Hstr).
  pose proof Hk as [Hsize _]%cast_contents_Some.
  unfold kernel_data.sizeof in Hsize.
  destruct (inet_ntop_quad (take 4 (drop 208 data)))
    as (s0 & s1 & s2 & s3 & Hs & Hs');
    [rewrite length_take, length_drop; lia|].
  destruct (inet_ntop_quad (take 4 (drop 212 data)))
    as (d0 & d1 & d2 & d3 & Hd & Hd');
    [rewrite length_take, length_drop; lia|].
  exists s0, s1, s2, s3, d0, d1, d2, d3. split; [done|]. split; [done|].
  rewrite Hs' in Hsrc. rewrite Hd' in Hdst.
  injection Hsrc as <-. injection Hdst as <-.
  rewrite Hstr. f_equal. f_equal. rewrite !app_assoc_s. reflexivity.
Qed.

Lemma event_block_layout_witness :
  kernel_data.__str__ LittleEndian false
    (kernel_data.read LittleEndian (sample_net 602 "abcdef0123456789")) =
  Ok ("[ktime: 123456789][gid: 1000][uid: 1000][pid: 4242][curl]" +:+
      String "010" "|__parent: [gid: 1000][uid: 1000][pid: 4000][bash]" +:+
      String "010"
        "|__netinfo: [TCP/CONN][IPv4][192.168.1.10:36895 <-> 10.0.0.1:20480]" +:+
      String "010" "|__container: [dockerid: abcdef012345]").
Proof.
  destruct (event_block_layout LittleEndian false
              (sample_net 602 "abcdef0123456789")
              (kernel_data.read LittleEndian (sample_net 602 "abcdef0123456789"))
              eq_refl (or_intror eq_refl))
    as (s0 & s1 & s2 & s3 & d0 & d1 & d2 & d3 & Hs & Hd & Hstr).
  vm_compute in Hs, Hd.
  injection Hs as <- <- <- <-. injection Hd as <- <- <- <-.
  rewrite Hstr. vm_compute. reflexivity.
Defined.

(** C2: the formatted output of a decoded record of kind 601 or 602 is the
    three lines of the task, the parent and the network when the cgroup of
    the task is "/", and these three lines followed by the container line
    when it is not; the text that starts a container line occurs nowhere in
    the three lines, so that the output for the cgroup "/" holds no container
    line. *)
Theorem container_line_iff_not_root (host : byteorder) (NO_TRUNC : bool)
    (data : list Byte.byte) (k : kernel_data.t) :
  cast_contents host data = Some k →
  kernel_data.etype k = 601 ∨ kernel_data.etype k = 602 →
  ∃ s0 s1 s2 s3 d0 d1 d2 d3 three_lines,
    take 4 (drop 208 data) = [s0; s1; s2; s3] ∧
    take 4 (drop 212 data) = [d0; d1; d2; d3] ∧
    three_lines =
      ("[ktime: " +:+ pretty (kernel_data.ktime k) +:+
       "][gid: " +:+ pretty (task_info.gid (kernel_data.task k)) +:+
       "][uid: " +:+ pretty (task_info.uid (kernel_data.task k)) +:+
       "][pid: " +:+ pretty (task_info.pid (kernel_data.task k)) +:+
       "][" +:+ task_info.task (kernel_data.task k) +:+ "]" +:+
       String "010" "|__parent: [gid: " +:+
       pretty (task_info.gid (kernel_data.ptask k)) +:+
       "][uid: " +:+ pretty (task_info.uid (kernel_data.ptask k)) +:+
       "][pid: " +:+ pretty (task_info.pid (kernel_data.ptask k)) +:+
       "][" +:+ task_info.task (kernel_data.ptask k) +:+ "]" +:+
       String "010" "|__netinfo: [" +:+
       (if decide (kernel_data.etype k = 601) then "TCP/ACC" else "TCP/CONN") +:+
       "][IPv4][" +:+
       pretty (Z.of_N (Byte.to_N s0)) +:+ "." +:+
       pretty (Z.of_N (Byte.to_N s1)) +:+ "." +:+
       pretty (Z.of_N (Byte.to_N s2)) +:+ "." +:+
       pretty (Z.of_N (Byte.to_N s3)) +:+ ":" +:+
       pretty (net_info4.loc_port (kernel_data.net4 k)) +:+ " <-> " +:+
       pretty (Z.of_N (Byte.to_N d0)) +:+ "." +:+
       pretty (Z.of_N (Byte.to_N d1)) +:+ "." +:+
       pretty (Z.of_N (Byte.to_N d2)) +:+ "." +:+
       pretty (Z.of_N (Byte.to_N d3)) +:+ ":" +:+
       pretty (net_info4.dst_port (kernel_data.net4 k)) +:+ "]") ∧
    (∀ pre post : string,
       three_lines ≠ pre +:+ "container: [dockerid: " +:+ post) ∧
    (task_info.cgroup (kernel_data.task k) = "/" →
     kernel_data.__str__ host NO_TRUNC k = Ok three_lines) ∧
    (task_info.cgroup (kernel_data.task k) ≠ "/" →
     kernel_data.__str__ host NO_TRUNC k =
     Ok (three_lines +:+
         String "010" "|__container: [dockerid: " +:+
         (if NO_TRUNC then task_info.cgroup (kernel_data.task k)
          else substring 0 12 (task_info.cgroup (kernel_data.task k))) +:+
         "]")).
Proof.
  intros Hk Hkind.
  destruct (str_decoded_block host NO_TRUNC data k Hk Hkind)
    as (src & dst & Hsrc & Hdst & Hstr).
  pose proof Hk as [Hsize Hread]%cast_contents_Some.
  unfold kernel_data.sizeof in Hsize.
  destruct (inet_ntop_quad (take 4 (drop 208 data)))
    as (s0 & s1 & s2 & s3 & Hs & Hs');
    [rewrite length_take, length_drop; lia|].
  destruct (inet_ntop_quad (take 4 (drop 212 data)))
    as (d0 & d1 & d2 & d3 & Hd & Hd');
    [rewrite length_take, length_drop; lia|].
  exists s0, s1, s2, s3, d0, d1, d2, d3. eexists.
  split; [done|]. split; [done|]. split; [reflexivity|].
  rewrite Hs' in Hsrc. rewrite Hd' in Hdst.
  injection Hsrc as <-. injection Hdst as <-.
  split; [|split].
  - apply three_lines_without_container.
    + repeat apply Forall_cons_2; try apply Forall_nil_2;
        apply pretty_Z_no_c.
    + rewrite Hread. unfold task_info.task.
      destruct (read_offsets host data) as (_ & -> & _).
      apply (c_char_array_field 92 16 data). lia.
    + rewrite Hread. unfold task_info.task.
      destruct (read_offsets_parent host data) as (_ & ->).
      apply (c_char_array_field 184 16 data). lia.
    + destruct (decide (kernel_data.etype k = 601)); [by left | by right].
  - intros Hroot. rewrite Hstr.
    destruct (decide (task_info.cgroup (kernel_data.task k) = "/")); [|done].
    f_equal. rewrite !app_assoc_s, ?app_empty_r. reflexivity.
  - intros Hroot. rewrite Hstr.
    destruct (decide (task_info.cgroup (kernel_data.task k) = "/")); [done|].
    f_equal. rewrite !app_assoc_s. reflexivity.
Qed.

Lemma container_line_iff_not_root_witness :
  kernel_data.__str__ LittleEndian false
    (kernel_data.read LittleEndian (sample_net 601 "/")) =
  Ok ("[ktime: 123456789][gid: 1000][uid: 1000][pid: 4242][curl]" +:+
      String "010" "|__parent: [gid: 1000][uid: 1000][pid: 4000][bash]" +:+
      String "010"
        "|__netinfo: [TCP/ACC][IPv4][192.168.1.10:36895 <-> 10.0.0.1:20480]") ∧
  kernel_data.__str__ LittleEndian true
    (kernel_data.read LittleEndian (sample_net 601 "abcdef0123456789")) =
  Ok ("[ktime: 123456789][gid: 1000][uid: 1000][pid: 4242][curl]" +:+
      String "010" "|__parent: [gid: 1000][uid: 1000][pid: 4000][bash]" +:+
      String "010"
        "|__netinfo: [TCP/ACC][IPv4][192.168.1.10:36895 <-> 10.0.0.1:20480]" +:+
      String "010" "|__container: [dockerid: abcdef0123456789]").
Proof.
  split.
  - destruct (container_line_iff_not_root LittleEndian false
                (sample_net 601 "/")
                (kernel_data.read LittleEndian (sample_net 601 "/"))
                eq_refl (or_introl eq_refl))
      as (s0 & s1 & s2 & s3 & d0 & d1 & d2 & d3 & three & Hs & Hd & -> & _
          & Hroot & _).
    vm_compute in Hs, Hd.
    injection Hs as <- <- <- <-. injection Hd as <- <- <- <-.
    rewrite Hroot by reflexivity. vm_compute. reflexivity.
  - destruct (container_line_iff_not_root LittleEndian true
                (sample_net 601 "abcdef0123456789")
                (kernel_data.read LittleEndian
                   (sample_net 601 "abcdef0123456789"))
                eq_refl (or_introl eq_refl))
      as (s0 & s1 & s2 & s3 & d0 & d1 & d2 & d3 & three & Hs & Hd & -> & _
          & _ & Hcont).
    vm_compute in Hs, Hd.
    injection Hs as <- <- <- <-. injection Hd as <- <- <- <-.
    rewrite Hcont by (vm_compute; discriminate). vm_compute. reflexivity.
Defined.







(** ** The event handler *)

Lemma read_take (host : byteorder) (data : list Byte.byte) :
  kernel_data.read host (take kernel_data.sizeof data) =
  kernel_data.read host data.
Proof.
  unfold kernel_data.read, kernel_data.sizeof, task_info.sizeof,
    net_info4.sizeof.
  by rewrite !field_take by lia.
Qed.

(** C3, as the specification states it, fails: a record of kind 7 is counted
    (the connect counter goes from 0 to 1) and the call ends by the exception
    KeyError instead of dropping the record. *)
Lemma unknown_kind_counterexample :
  print_ipv4_event LittleEndian false initial_world 0 (sample_net 7 "/") 216 =
  Some ({| estats :=
             {| Events_Statics.connect_counter := {| AtomicInteger.m_value := 1 |};
                Events_Statics.accept_counter := {| AtomicInteger.m_value := 0 |} |};
           stdout := [] |},
        Raise (KeyError 7)).
Proof. vm_compute. reflexivity. Qed.

(** C3, amended: for a record whose kind is neither 601 nor 602 the handler
    first counts the record as a connect event and then ends by the KeyError
    of the label lookup; nothing is printed. *)
Theorem unknown_kind_counted_then_KeyError (host : byteorder)
    (NO_TRUNC : bool) (w : world) (cpu size : Z) (data : list Byte.byte)
    (k : kernel_data.t) :
  cast_contents host data = Some k →
  kernel_data.etype k ≠ 601 → kernel_data.etype k ≠ 602 →
  ∃ w',
    print_ipv4_event host NO_TRUNC w cpu data size =
      Some (w', Raise (KeyError (kernel_data.etype k))) ∧
    stdout w' = stdout w ∧
    connects (estats w') = connects (estats w) + 1 ∧
    accepts (estats w') = accepts (estats w).
Proof.
  intros Hk H601 H602. unfold print_ipv4_event. rewrite Hk.
  cbn [mbind option_bind].
  unfold kernel_data.__str__, kernel_data.lines.
  rewrite format_ltask, format_lparent. cbn [mbind result_bind].
  rewrite etype2str_unknown by done. cbn [mbind result_bind].
  eexists. split; [reflexivity|]. cbn [stdout estats].
  split; [done|].
  destruct (add_other (estats w) k H601) as [-> ->]. done.
Qed.

Lemma unknown_kind_counted_then_KeyError_witness :
  ∃ w',
    print_ipv4_event LittleEndian false initial_world 0
      (sample_net 7 "/") 216 = Some (w', Raise (KeyError 7)) ∧
    stdout w' = [] ∧
    connects (estats w') = 1 ∧
    accepts (estats w') = 0.
Proof.
  refine (unknown_kind_counted_then_KeyError LittleEndian false initial_world
            0 216 (sample_net 7 "/")
            (kernel_data.read LittleEndian (sample_net 7 "/")) eq_refl _ _);
    vm_compute; discriminate.
Defined.

(** C4, as the specification states it, fails: a buffer of 220 bytes, four
    more than the record, is decoded, counted and printed. *)
Lemma size_mismatch_counterexample :
  length (sample_net 601 "/" ++ replicate 4 Byte.x00) = 220%nat ∧
  print_ipv4_event LittleEndian false initial_world 0
    (sample_net 601 "/" ++ replicate 4 Byte.x00) 220 =
  Some ({| estats :=
             {| Events_Statics.connect_counter := {| AtomicInteger.m_value := 0 |};
                Events_Statics.accept_counter := {| AtomicInteger.m_value := 1 |} |};
           stdout :=
             ["[ktime: 123456789][gid: 1000][uid: 1000][pid: 4242][curl]" +:+
              nl +:+ "|__parent: [gid: 1000][uid: 1000][pid: 4000][bash]" +:+
              nl +:+ "|__netinfo: [TCP/ACC][IPv4][192.168.1.10:36895 <-> 10.0.0.1:20480]"] |},
        Ok ()).
Proof. split; vm_compute; reflexivity. Qed.

(** C4, amended: the handler never looks at the size it is given.  For a
    buffer that holds at least the 216 bytes of the structure, whatever its
    length and whatever the size reported, the first 216 bytes are taken as
    the record, which is counted and then formatted. *)
Theorem size_is_ignored (host : byteorder) (NO_TRUNC : bool) (w : world)
    (cpu size : Z) (data : list Byte.byte) :
  (kernel_data.sizeof ≤ length data)%nat →
  ∃ k,
    cast_contents host (take kernel_data.sizeof data) = Some k ∧
    (∀ size', print_ipv4_event host NO_TRUNC w cpu data size' =
              print_ipv4_event host NO_TRUNC w cpu
                (take kernel_data.sizeof data) (Z.of_nat kernel_data.sizeof)) ∧
    print_ipv4_event host NO_TRUNC w cpu data size =
      Some (match kernel_data.__str__ host NO_TRUNC k with
            | Ok s => ({| estats := Events_Statics.add (estats w) k;
                          stdout := stdout w ++ [s] |}, Ok ())
            | Raise e => ({| estats := Events_Statics.add (estats w) k;
                             stdout := stdout w |}, Raise e)
            end).
Proof.
  intros Hlen. exists (kernel_data.read host data).
  assert (Hcast : cast_contents host data = Some (kernel_data.read host data)).
  { apply cast_contents_Some. done. }
  assert (Htake : cast_contents host (take kernel_data.sizeof data) =
                  Some (kernel_data.read host data)).
  { apply cast_contents_Some. rewrite length_take, read_take. split; [lia|done]. }
  split; [done|]. unfold print_ipv4_event. rewrite Hcast, Htake.
  split; [done|]. cbn [mbind option_bind].
  by destruct (kernel_data.__str__ host NO_TRUNC (kernel_data.read host data)).
Qed.

Lemma size_is_ignored_witness :
  ∃ k,
    cast_contents LittleEndian
      (take kernel_data.sizeof (sample_net 601 "/" ++ replicate 4 Byte.x00)) =
      Some k ∧
    ∀ size', print_ipv4_event LittleEndian false initial_world 0
               (sample_net 601 "/" ++ replicate 4 Byte.x00) size' =
             print_ipv4_event LittleEndian false initial_world 0
               (take kernel_data.sizeof
                  (sample_net 601 "/" ++ replicate 4 Byte.x00))
               (Z.of_nat kernel_data.sizeof).
Proof.
  destruct (size_is_ignored LittleEndian false initial_world 0 220
              (sample_net 601 "/" ++ replicate 4 Byte.x00))
    as (k & Hk & Hsize & _).
  - vm_compute. lia.
  - exists k. split; [exact Hk | exact Hsize].
Defined.

(** ** The program text *)

Section replace.
Implicit Types (old new s pre post : string).

Lemma prefix_app old s : String.prefix old (old +:+ s) = true.
Proof.
  induction old as [|c old IH]; [by destruct s|].
  change (String c old +:+ s) with (String c (old +:+ s)).
  cbn [String.prefix]. by destruct (ascii_dec c c).
Qed.

Lemma prefix_split old s :
  String.prefix old s = true → ∃ rest, s = old +:+ rest.
Proof.
  revert s. induction old as [|c old IH]; intros s H.
  - by exists s.
  - destruct s as [|a s]; [done|]. cbn [String.prefix] in H.
    destruct (ascii_dec c a) as [->|]; [|done].
    destruct (IH s H) as [rest ->]. by exists rest.
Qed.

(** a prefix test only looks at the first [length old] characters *)
Lemma prefix_app_long old pre post :
  (String.length old ≤ String.length pre)%nat →
  String.prefix old (pre +:+ post) = String.prefix old pre.
Proof.
  revert pre. induction old as [|c old IH]; intros pre Hlen.
  - by destruct pre, post.
  - destruct pre as [|a pre]; [simpl in Hlen; lia|].
    change (String a pre +:+ post) with (String a (pre +:+ post)).
    cbn [String.prefix]. destruct (ascii_dec c a); [|done].
    apply IH. simpl in Hlen. lia.
Qed.

Lemma replace_go_skip old new pre s :
  replace_go (String.length pre) old new (pre +:+ s) = replace_go 0 old new s.
Proof. induction pre as [|a pre IH]; [done|]. exact IH. Qed.

Lemma replace_here c old new s :
  replace (String c old) new (String c old +:+ s) =
  new +:+ replace (String c old) new s.
Proof.
  unfold replace.
  change (String c old +:+ s) with (String c (old +:+ s)).
  cbn [replace_go].
  change (String c (old +:+ s)) with (String c old +:+ s).
  rewrite prefix_app.
  replace (String.length (String c old) - 1)%nat with (String.length old)
    by (simpl; lia).
  by rewrite replace_go_skip.
Qed.

Lemma replace_not_here old new a s :
  String.prefix old (String a s) = false →
  replace old new (String a s) = String a (replace old new s).
Proof. unfold replace. cbn [replace_go]. by intros ->. Qed.

Lemma replace_absent old new s :
  find old s = None → replace old new s = s.
Proof.
  unfold find. induction s as [|a s IH]; [done|].
  cbn [index]. destruct (String.prefix old (String a s)) eqn:Hp; [done|].
  destruct (index 0 old s); [done|]. intros _.
  rewrite replace_not_here by done. by rewrite IH.
Qed.
End replace.

(** the token cannot start inside a text of one to eight characters that is
    followed by the token: its last letter occurs nowhere else in it *)
Lemma token_unbordered (u post : string) :
  (0 < String.length u < 9)%nat →
  String.prefix "FLTR_TASK" (u +:+ "FLTR_TASK" +:+ post) = false.
Proof.
  intros Hlen.
  destruct (String.prefix _ _) eqn:Hp; [|done].
  apply prefix_split in Hp as [rest Hrest].
  destruct u as [|a1 [|a2 [|a3 [|a4 [|a5 [|a6 [|a7 [|a8 [|a9 u]]]]]]]]];
    simpl in Hlen; try lia; vm_compute in Hrest; discriminate.
Qed.

(** every occurrence of the token is replaced and the text around it is
    kept *)
Lemma replace_token (new pre post : string) :
  replace "FLTR_TASK" new (pre +:+ "FLTR_TASK" +:+ post) =
  replace "FLTR_TASK" new pre +:+ new +:+ replace "FLTR_TASK" new post.
Proof.
  remember (String.length pre) as n eqn:Hn.
  revert pre Hn. induction (lt_wf n) as [n _ IH]. intros pre ->.
  destruct pre as [|a pre].
  - change ("" +:+ "FLTR_TASK" +:+ post) with ("FLTR_TASK" +:+ post).
    by rewrite replace_here.
  - destruct (String.prefix "FLTR_TASK" (String a pre)) eqn:Hp.
    + apply prefix_split in Hp as [rest Hrest]. rewrite Hrest.
      rewrite app_assoc_s, !replace_here, app_assoc_s. f_equal.
      apply (IH (String.length rest)); [|done].
      rewrite Hrest. vm_compute. lia.
    + assert (Hp' : String.prefix "FLTR_TASK"
                      (String a pre +:+ "FLTR_TASK" +:+ post) = false).
      { destruct (decide (9 ≤ String.length (String a pre))%nat) as [Hl|Hl].
        - by rewrite prefix_app_long.
        - apply token_unbordered. simpl in *. lia. }
      change (String a pre +:+ "FLTR_TASK" +:+ post)
        with (String a (pre +:+ "FLTR_TASK" +:+ post)) in *.
      rewrite !replace_not_here by done.
      rewrite (IH (String.length pre)) by (simpl; lia || done).
      done.
Qed.

Lemma format_filter (name : string) :
  format ("if(ebpf_strcmp(event_data.task.task, " +:+ dquote +:+
          "%s" +:+ dquote +:+ ") == 0)") [name] =
  Ok ("if(ebpf_strcmp(event_data.task.task, " +:+ dquote +:+
      name +:+ dquote +:+ ") == 0)").
Proof. vm_compute. reflexivity. Qed.

(** C9: when the file [ebpf.c] holds a text with the token FLTR_TASK in it,
    [readebpf] returns this text with the token replaced by the comparison of
    the task name of the event with the requested name when a name is given,
    and by the empty string when none is given; this is done for every
    occurrence of the token, and the text before and after a token that holds
    no further token is returned as it is. *)
Theorem readebpf_substitutes (fs : gmap string string) (src : string)
    (task : option string) (pre post : string) :
  fs !! "ebpf.c" = Some (pre +:+ "FLTR_TASK" +:+ post) →
  ∃ fltr,
    fltr = match task with
           | Some name =>
               "if(ebpf_strcmp(event_data.task.task, " +:+ dquote +:+
               name +:+ dquote +:+ ") == 0)"
           | None => ""
           end ∧
    readebpf fs src task =
      Ok (replace "FLTR_TASK" fltr pre +:+ fltr +:+
          replace "FLTR_TASK" fltr post) ∧
    (find "FLTR_TASK" pre = None → find "FLTR_TASK" post = None →
     readebpf fs src task = Ok (pre +:+ fltr +:+ post)).
Proof.
  intros Hfile. eexists. split; [reflexivity|].
  unfold readebpf, read_file. rewrite Hfile. cbn [mbind result_bind].
  destruct task as [name|].
  - rewrite format_filter. cbn [mbind result_bind]. rewrite replace_token.
    split; [done|]. intros Hpre Hpost.
    by rewrite !replace_absent by done.
  - cbn [mbind result_bind]. rewrite replace_token.
    split; [done|]. intros Hpre Hpost.
    by rewrite !replace_absent by done.
Qed.

Lemma readebpf_substitutes_witness :
  readebpf {[ "ebpf.c" := "int f() { FLTR_TASK { submit(); } }" ]}
    "ebpf.c" (Some "curl") =
  Ok ("int f() { " +:+
      ("if(ebpf_strcmp(event_data.task.task, " +:+ dquote +:+
       "curl" +:+ dquote +:+ ") == 0)") +:+
      " { submit(); } }").
Proof.
  destruct (readebpf_substitutes
              {[ "ebpf.c" := "int f() { FLTR_TASK { submit(); } }" ]}
              "ebpf.c" (Some "curl") "int f() { " " { submit(); } }")
    as (fltr & -> & _ & Hone).
  - vm_compute. reflexivity.
  - apply Hone; reflexivity.
Defined.

(** * Further properties of the code *)

(** ** Decoding *)

(** X1: The strings of a decoded record are the bytes of their fields before the
    first NUL: the cgroup and the command name of the task, and the command
    name of the parent, hold no NUL, are followed in the field by a NUL or
    fill the field, and are at most 64, 16 and 16 bytes long. *)
Theorem char_fields_stop_at_nul (host : byteorder) (data : list Byte.byte)
    (k : kernel_data.t) :
  cast_contents host data = Some k →
  let cg := list_byte_of_string (task_info.cgroup (kernel_data.task k)) in
  let comm := list_byte_of_string (task_info.task (kernel_data.task k)) in
  let pcomm := list_byte_of_string (task_info.task (kernel_data.ptask k)) in
  (Byte.x00 ∉ cg) ∧ (Byte.x00 ∉ comm) ∧ (Byte.x00 ∉ pcomm) ∧
  (field 28 64 data = cg ∨ ∃ rest, field 28 64 data = cg ++ Byte.x00 :: rest) ∧
  (field 92 16 data = comm ∨
   ∃ rest, field 92 16 data = comm ++ Byte.x00 :: rest) ∧
  (field 184 16 data = pcomm ∨
   ∃ rest, field 184 16 data = pcomm ++ Byte.x00 :: rest) ∧
  (length cg ≤ 64)%nat ∧ (length comm ≤ 16)%nat ∧ (length pcomm ≤ 16)%nat.
Proof.
  intros [Hsize ->]%cast_contents_Some. unfold kernel_data.sizeof in Hsize.
  destruct (read_offsets host data) as (Hcg & Hcomm & _).
  destruct (read_offsets_parent host data) as (_ & Hpcomm).
  unfold task_info.cgroup, task_info.task. cbn zeta.
  rewrite Hcg, Hcomm, Hpcomm.
  destruct (c_char_array_field 28 64 data) as (H1 & H2 & H3); [lia|].
  destruct (c_char_array_field 92 16 data) as (H4 & H5 & H6); [lia|].
  destruct (c_char_array_field 184 16 data) as (H7 & H8 & H9); [lia|].
  assert (Hlen : ∀ s, length (list_byte_of_string s) = String.length s).
  { intros s. unfold list_byte_of_string. rewrite length_map.
    induction s as [|c s IH]; [done|]. cbn. by rewrite IH. }
  rewrite !Hlen. done.
Qed.

Lemma char_fields_stop_at_nul_witness :
  list_byte_of_string
    (task_info.task
       (kernel_data.task (kernel_data.read LittleEndian (sample_net 601 "/")))) =
  list_byte_of_string "curl" ∧
  (length (list_byte_of_string
     (task_info.task
        (kernel_data.task
           (kernel_data.read LittleEndian (sample_net 601 "/"))))) ≤ 16)%nat.
Proof.
  split; [reflexivity|].
  exact (proj1 (proj2 (proj2 (proj2 (proj2 (proj2 (proj2 (proj2
    (char_fields_stop_at_nul LittleEndian (sample_net 601 "/")
       (kernel_data.read LittleEndian (sample_net 601 "/")) eq_refl))))))))).
Defined.

(** X2: The numbers of a decoded record are within the ranges of their C types,
    whatever the bytes of the buffer: 64 bits for the two times, 32 bits for
    pid, uid and gid and for the addresses, 16 bits for the ports, and 32
    bits with a sign for the kind. *)
Theorem decoded_fields_in_range (host : byteorder) (data : list Byte.byte)
    (k : kernel_data.t) :
  cast_contents host data = Some k →
  0 ≤ kernel_data.absolute_time k < 2 ^ 64 ∧
  0 ≤ kernel_data.ktime k < 2 ^ 64 ∧
  0 ≤ task_info.pid (kernel_data.task k) < 2 ^ 32 ∧
  0 ≤ task_info.uid (kernel_data.task k) < 2 ^ 32 ∧
  0 ≤ task_info.gid (kernel_data.task k) < 2 ^ 32 ∧
  0 ≤ task_info.pid (kernel_data.ptask k) < 2 ^ 32 ∧
  0 ≤ task_info.uid (kernel_data.ptask k) < 2 ^ 32 ∧
  0 ≤ task_info.gid (kernel_data.ptask k) < 2 ^ 32 ∧
  - 2 ^ 31 ≤ kernel_data.etype k < 2 ^ 31 ∧
  0 ≤ net_info4.loc_port (kernel_data.net4 k) < 2 ^ 16 ∧
  0 ≤ net_info4.dst_port (kernel_data.net4 k) < 2 ^ 16 ∧
  0 ≤ net_info4.saddr (kernel_data.net4 k) < 2 ^ 32 ∧
  0 ≤ net_info4.daddr (kernel_data.net4 k) < 2 ^ 32.
Proof.
  intros [Hsize ->]%cast_contents_Some. unfold kernel_data.sizeof in Hsize.
  assert (Hr : ∀ off len, (off + len ≤ 216)%nat →
            0 ≤ c_uint host (field off len data) < 256 ^ Z.of_nat len).
  { intros off len Hle. pose proof (c_uint_range host (field off len data)) as H.
    by rewrite length_field in H by lia. }
  cbn [kernel_data.read kernel_data.absolute_time kernel_data.ktime
       kernel_data.task kernel_data.ptask kernel_data.etype kernel_data.net4
       task_info.read task_info.pid task_info.uid task_info.gid
       net_info4.read net_info4.loc_port net_info4.dst_port net_info4.saddr
       net_info4.daddr].
  unfold task_info.sizeof, net_info4.sizeof, c_int.
  rewrite !field_field by lia. cbn [Nat.add].
  pose proof (Hr 0 8 ltac:(lia))%nat. pose proof (Hr 8 8 ltac:(lia))%nat.
  pose proof (Hr 16 4 ltac:(lia))%nat. pose proof (Hr 20 4 ltac:(lia))%nat.
  pose proof (Hr 24 4 ltac:(lia))%nat. pose proof (Hr 108 4 ltac:(lia))%nat.
  pose proof (Hr 112 4 ltac:(lia))%nat. pose proof (Hr 116 4 ltac:(lia))%nat.
  pose proof (Hr 200 4 ltac:(lia))%nat. pose proof (Hr 204 2 ltac:(lia))%nat.
  pose proof (Hr 206 2 ltac:(lia))%nat. pose proof (Hr 208 4 ltac:(lia))%nat.
  pose proof (Hr 212 4 ltac:(lia))%nat.
  change (256 ^ Z.of_nat 8) with (2 ^ 64) in *.
  change (256 ^ Z.of_nat 4) with (2 ^ 32) in *.
  change (256 ^ Z.of_nat 2) with (2 ^ 16) in *.
  destruct (c_uint host (field 200 4 data) <? 2 ^ 31) eqn:Hlt;
    [apply Z.ltb_lt in Hlt | apply Z.ltb_ge in Hlt]; lia.
Qed.

Lemma decoded_fields_in_range_witness :
  - 2 ^ 31 ≤
    kernel_data.etype (kernel_data.read LittleEndian (sample_net (-1) "/")) <
    2 ^ 31.
Proof.
  exact (proj1 (proj2 (proj2 (proj2 (proj2 (proj2 (proj2 (proj2 (proj2
    (decoded_fields_in_range LittleEndian (sample_net (-1) "/")
       (kernel_data.read LittleEndian (sample_net (-1) "/"))
       eq_refl)))))))))).
Defined.

(** ** Formatting *)

(** X3: Formatting a decoded record fails in one way only: it raises KeyError
    with the kind as key when the kind is neither 601 nor 602, and it
    returns a block for 601 and for 602; no address, number or string of the
    record makes it fail. *)
Theorem str_fails_only_on_unknown_kind (host : byteorder) (NO_TRUNC : bool)
    (data : list Byte.byte) (k : kernel_data.t) :
  cast_contents host data = Some k →
  (kernel_data.etype k = 601 ∨ kernel_data.etype k = 602 →
   ∃ s, kernel_data.__str__ host NO_TRUNC k = Ok s) ∧
  (kernel_data.etype k ≠ 601 → kernel_data.etype k ≠ 602 →
   kernel_data.__str__ host NO_TRUNC k = Raise (KeyError (kernel_data.etype k))) ∧
  (∀ e, kernel_data.__str__ host NO_TRUNC k = Raise e →
        e = KeyError (kernel_data.etype k) ∧
        kernel_data.etype k ≠ 601 ∧ kernel_data.etype k ≠ 602).
Proof.
  intros Hk.
  assert (Hvalid : kernel_data.etype k = 601 ∨ kernel_data.etype k = 602 →
                   ∃ s, kernel_data.__str__ host NO_TRUNC k = Ok s).
  { intros Hkind.
    destruct (lines_decoded host NO_TRUNC data k Hk Hkind)
      as (src & dst & _ & _ & Hlines).
    unfold kernel_data.__str__. rewrite Hlines. by eexists. }
  assert (Hunknown : kernel_data.etype k ≠ 601 → kernel_data.etype k ≠ 602 →
            kernel_data.__str__ host NO_TRUNC k =
            Raise (KeyError (kernel_data.etype k))).
  { intros H1 H2. unfold kernel_data.__str__, kernel_data.lines.
    rewrite format_ltask, format_lparent. cbn [mbind result_bind].
    by rewrite etype2str_unknown. }
  split; [done|]. split; [done|]. intros e He.
  destruct (decide (kernel_data.etype k = 601)) as [H1|H1].
  { destruct Hvalid as [s Hs]; [by left|]. congruence. }
  destruct (decide (kernel_data.etype k = 602)) as [H2|H2].
  { destruct Hvalid as [s Hs]; [by right|]. congruence. }
  rewrite Hunknown in He by done. by injection He as <-.
Qed.

Lemma str_fails_only_on_unknown_kind_witness :
  kernel_data.__str__ LittleEndian false
    (kernel_data.read LittleEndian (sample_net (-1) "/")) =
  Raise (KeyError (-1)).
Proof.
  refine (proj1 (proj2
    (str_fails_only_on_unknown_kind LittleEndian false (sample_net (-1) "/")
       (kernel_data.read LittleEndian (sample_net (-1) "/")) eq_refl)) _ _);
    vm_compute; discriminate.
Defined.

(** X4: The two addresses of the network line are the dotted quads of bytes
    208-211 and 212-215 of the buffer, in the order of the buffer, on a
    little-endian and on a big-endian host alike: reading the field and
    packing it again undo each other. *)
Theorem addresses_from_raw_bytes (host : byteorder) (data : list Byte.byte)
    (k : kernel_data.t) :
  cast_contents host data = Some k →
  ∃ s0 s1 s2 s3 d0 d1 d2 d3,
    field 208 4 data = [s0; s1; s2; s3] ∧
    field 212 4 data = [d0; d1; d2; d3] ∧
    pack_I host (net_info4.saddr (kernel_data.net4 k)) ≫= inet_ntop =
      Ok (pretty (byte_val s0) +:+ "." +:+ pretty (byte_val s1) +:+ "." +:+
          pretty (byte_val s2) +:+ "." +:+ pretty (byte_val s3)) ∧
    pack_I host (net_info4.daddr (kernel_data.net4 k)) ≫= inet_ntop =
      Ok (pretty (byte_val d0) +:+ "." +:+ pretty (byte_val d1) +:+ "." +:+
          pretty (byte_val d2) +:+ "." +:+ pretty (byte_val d3)).
Proof.
  intros [Hsize ->]%cast_contents_Some. unfold kernel_data.sizeof in Hsize.
  destruct (read_offsets host data) as (_ & _ & _ & _ & -> & ->).
  pose proof (length_field 208 4 data ltac:(lia)) as Hs.
  pose proof (length_field 212 4 data ltac:(lia)) as Hd.
  rewrite !pack_I_c_uint by done.
  destruct (field 208 4 data) as [|s0 [|s1 [|s2 [|s3 [|? ?]]]]]; try done.
  destruct (field 212 4 data) as [|d0 [|d1 [|d2 [|d3 [|? ?]]]]]; try done.
  by exists s0, s1, s2, s3, d0, d1, d2, d3.
Qed.

Lemma addresses_from_raw_bytes_witness :
  pack_I BigEndian
    (net_info4.saddr
       (kernel_data.net4 (kernel_data.read BigEndian (sample_net 601 "/"))))
    ≫= inet_ntop = Ok "192.168.1.10".
Proof.
  destruct (addresses_from_raw_bytes BigEndian (sample_net 601 "/")
              (kernel_data.read BigEndian (sample_net 601 "/")) eq_refl)
    as (s0 & s1 & s2 & s3 & d0 & d1 & d2 & d3 & Hs & _ & Hsrc & _).
  rewrite Hsrc. injection Hs as <- <- <- <-. reflexivity.
Defined.

Lemma uint_le_two (b0 b1 : Byte.byte) :
  uint_le [b0; b1] = byte_val b0 + 256 * byte_val b1.
Proof. cbn. lia. Qed.

(** X5: The two port fields are read in the byte order of the host.  With b0
    and b1 the two bytes of a port field in the buffer, a big-endian host
    shows 256*b0 + b1, which is the port when the bytes are in network
    order; a little-endian host shows b0 + 256*b1, from which [ntohs] would
    give 256*b0 + b1, and the two are equal only when b0 = b1. *)
Theorem ports_in_host_order (host : byteorder) (data : list Byte.byte)
    (k : kernel_data.t) :
  cast_contents host data = Some k →
  ∃ l0 l1 r0 r1,
    field 204 2 data = [l0; l1] ∧ field 206 2 data = [r0; r1] ∧
    net_info4.loc_port (kernel_data.net4 k) =
      (match host with
       | LittleEndian => byte_val l0 + 256 * byte_val l1
       | BigEndian => 256 * byte_val l0 + byte_val l1
       end) ∧
    net_info4.dst_port (kernel_data.net4 k) =
      (match host with
       | LittleEndian => byte_val r0 + 256 * byte_val r1
       | BigEndian => 256 * byte_val r0 + byte_val r1
       end) ∧
    ntohs host (net_info4.loc_port (kernel_data.net4 k)) =
      256 * byte_val l0 + byte_val l1 ∧
    ntohs host (net_info4.dst_port (kernel_data.net4 k)) =
      256 * byte_val r0 + byte_val r1 ∧
    (net_info4.loc_port (kernel_data.net4 k) = 256 * byte_val l0 + byte_val l1
     ↔ host = BigEndian ∨ l0 = l1).
Proof.
  intros [Hsize ->]%cast_contents_Some. unfold kernel_data.sizeof in Hsize.
  destruct (read_offsets host data) as (_ & _ & -> & -> & _ & _).
  pose proof (length_field 204 2 data ltac:(lia)) as Hl.
  pose proof (length_field 206 2 data ltac:(lia)) as Hr.
  destruct (field 204 2 data) as [|l0 [|l1 [|? ?]]]; try done.
  destruct (field 206 2 data) as [|r0 [|r1 [|? ?]]]; try done.
  exists l0, l1, r0, r1. split; [done|]. split; [done|].
  pose proof (byte_val_range l0). pose proof (byte_val_range l1).
  pose proof (byte_val_range r0). pose proof (byte_val_range r1).
  assert (Hinj : byte_val l0 = byte_val l1 → l0 = l1).
  { unfold byte_val. intros Heq%(inj Z.of_N).
    apply (f_equal Byte.of_N) in Heq. rewrite !Byte.of_to_N in Heq.
    by injection Heq. }
  destruct host; unfold c_uint, ntohs.
  - rewrite !uint_le_two.
    repeat split; try lia.
    + Z.div_mod_to_equations. lia.
    + Z.div_mod_to_equations. lia.
    + intros Heq. right. apply Hinj. lia.
    + intros [?| ->]; [done | lia].
  - change (reverse [l0; l1]) with [l1; l0].
    change (reverse [r0; r1]) with [r1; r0]. rewrite !uint_le_two.
    repeat split; try lia. intros _. by left.
Qed.

Lemma ports_in_host_order_witness :
  net_info4.loc_port
    (kernel_data.net4 (kernel_data.read BigEndian (sample_net 601 "/"))) =
  8080.
Proof.
  destruct (ports_in_host_order BigEndian (sample_net 601 "/")
              (kernel_data.read BigEndian (sample_net 601 "/")) eq_refl)
    as (l0 & l1 & r0 & r1 & Hl & _ & Hport & _).
  rewrite Hport. injection Hl as <- <-. reflexivity.
Defined.

Lemma slice_to_short (n : nat) (s : string) :
  (String.length s ≤ n)%nat → slice_to n s = s.
Proof.
  unfold slice_to. revert n.
  induction s as [|c s IH]; intros [|n] H; try done.
  - simpl in H. lia.
  - cbn [substring]. rewrite IH; [done|]. simpl in H. lia.
Qed.

Lemma slice_to_length (n : nat) (s : string) :
  String.length (slice_to n s) = (n `min` String.length s)%nat.
Proof.
  unfold slice_to. revert n.
  induction s as [|c s IH]; intros [|n]; try done.
  cbn [substring String.length]. by rewrite IH.
Qed.

(** X6: The identifier of the container line is never longer than 12 bytes when
    identifiers are truncated, and a cgroup of at most 12 bytes is shown
    whole: for such a record the block is the same with and without
    truncation. *)
Theorem short_id_not_truncated (host : byteorder) (k : kernel_data.t) :
  (String.length (slice_to 12 (task_info.cgroup (kernel_data.task k))) =
   12 `min` String.length (task_info.cgroup (kernel_data.task k)))%nat ∧
  ((String.length (task_info.cgroup (kernel_data.task k)) ≤ 12)%nat →
   kernel_data.__str__ host false k = kernel_data.__str__ host true k).
Proof.
  split; [apply slice_to_length|]. intros Hlen.
  unfold kernel_data.__str__, kernel_data.lines.
  by rewrite slice_to_short.
Qed.

Lemma short_id_not_truncated_witness :
  kernel_data.__str__ LittleEndian false
    (kernel_data.read LittleEndian (sample_net 602 "0123456789ab")) =
  kernel_data.__str__ LittleEndian true
    (kernel_data.read LittleEndian (sample_net 602 "0123456789ab")).
Proof.
  apply (short_id_not_truncated LittleEndian
           (kernel_data.read LittleEndian (sample_net 602 "0123456789ab"))).
  vm_compute. lia.
Defined.

(** ** The handler and the polling loop *)

Lemma block_of_kind (host : byteorder) (NO_TRUNC : bool) (d : delivery) :
  (kernel_data.sizeof ≤ length (d_data d))%nat →
  (kind_of host d = 601 ∨ kind_of host d = 602 →
   ∃ s, kernel_data.__str__ host NO_TRUNC (kernel_data.read host (d_data d)) =
        Ok s ∧ block_of host NO_TRUNC d = Some s) ∧
  (kind_of host d ≠ 601 → kind_of host d ≠ 602 →
   kernel_data.__str__ host NO_TRUNC (kernel_data.read host (d_data d)) =
     Raise (KeyError (kind_of host d)) ∧
   block_of host NO_TRUNC d = None).
Proof.
  intros Hsize. unfold kind_of, block_of.
  assert (Hk : cast_contents host (d_data d) =
               Some (kernel_data.read host (d_data d)))
    by (by apply cast_contents_Some).
  split.
  - intros Hkind.
    destruct (lines_decoded host NO_TRUNC _ _ Hk Hkind)
      as (src & dst & _ & _ & Hlines).
    unfold kernel_data.__str__. rewrite Hlines. by eexists.
  - intros H1 H2. unfold kernel_data.__str__, kernel_data.lines.
    rewrite format_ltask, format_lparent. cbn [mbind result_bind].
    by rewrite etype2str_unknown.
Qed.

Lemma print_ipv4_event_full (host : byteorder) (NO_TRUNC : bool) (w : world)
    (d : delivery) :
  (kernel_data.sizeof ≤ length (d_data d))%nat →
  ∃ r, print_ipv4_event host NO_TRUNC w (d_cpu d) (d_data d) (d_size d) =
         Some ({| estats := Events_Statics.add (estats w)
                              (kernel_data.read host (d_data d));
                  stdout := stdout w ++
                            option_list (block_of host NO_TRUNC d) |}, r).
Proof.
  intros Hsize. unfold print_ipv4_event, block_of.
  rewrite (proj2 (cast_contents_Some host (d_data d) _) (conj Hsize eq_refl)).
  cbn [mbind option_bind].
  destruct (kernel_data.__str__ host NO_TRUNC
              (kernel_data.read host (d_data d))) as [s|e].
  - by eexists.
  - cbn [option_list]. rewrite app_nil_r. by eexists.
Qed.

Lemma perf_buffer_poll_app (host : byteorder) (NO_TRUNC : bool) (w : world)
    (ds1 ds2 : list delivery) :
  perf_buffer_poll host NO_TRUNC w (ds1 ++ ds2) =
  perf_buffer_poll host NO_TRUNC w ds1 ≫=
    λ w', perf_buffer_poll host NO_TRUNC w' ds2.
Proof.
  revert w. induction ds1 as [|d ds1 IH]; intros w; [done|].
  cbn [app perf_buffer_poll].
  destruct (print_ipv4_event host NO_TRUNC w (d_cpu d) (d_data d) (d_size d))
    as [r|]; [apply IH | done].
Qed.

Lemma perf_buffer_poll_full (host : byteorder) (NO_TRUNC : bool) (w : world)
    (ds : list delivery) :
  full_records ds →
  perf_buffer_poll host NO_TRUNC w ds =
  Some {| estats := add_all (estats w)
                      ((λ d, kernel_data.read host (d_data d)) <$> ds);
          stdout := stdout w ++ omap (block_of host NO_TRUNC) ds |}.
Proof.
  intros Hfull. revert w.
  induction Hfull as [|d ds Hd _ IH]; intros w.
  - cbn. rewrite app_nil_r. by destruct w.
  - cbn [perf_buffer_poll].
    destruct (print_ipv4_event_full host NO_TRUNC w d Hd) as [r ->].
    cbn [mbind option_bind fst]. rewrite IH. cbn [estats stdout].
    f_equal. f_equal.
    rewrite <- app_assoc. f_equal. cbn [omap list_omap].
    by destruct (block_of host NO_TRUNC d).
Qed.

Lemma count_reads (host : byteorder) (ds : list delivery) :
  count is_accept ((λ d, kernel_data.read host (d_data d)) <$> ds) =
    length (filter (λ d, kind_of host d = 601) ds) ∧
  count (λ e, ¬ is_accept e) ((λ d, kernel_data.read host (d_data d)) <$> ds) =
    length (filter (λ d, kind_of host d ≠ 601) ds).
Proof.
  unfold count.
  induction ds as [|d ds [IH1 IH2]]; [done|].
  rewrite fmap_cons, !filter_cons. unfold is_accept, kind_of in *.
  repeat case_decide; cbn [length]; rewrite ?IH1, ?IH2; done || tauto.
Qed.

Lemma blocks_length (host : byteorder) (NO_TRUNC : bool) (ds : list delivery) :
  full_records ds →
  length (omap (block_of host NO_TRUNC) ds) =
  length (filter (λ d, kind_of host d = 601 ∨ kind_of host d = 602) ds).
Proof.
  induction 1 as [|d ds Hd _ IH]; [done|].
  cbn [omap list_omap]. rewrite filter_cons.
  destruct (block_of_kind host NO_TRUNC d Hd) as [Hvalid Hunknown].
  destruct (decide (kind_of host d = 601 ∨ kind_of host d = 602)) as [Hk|Hk].
  - destruct (Hvalid Hk) as (s & _ & ->). cbn [length]. by rewrite IH.
  - destruct Hunknown as [_ ->]; [tauto | tauto |]. done.
Qed.

(** X7: One call of the handler on a record of kind 601 or 602 that holds the
    bytes of the structure returns normally, raises the counter of the kind
    by one and leaves the other, and appends the block of the record, and
    nothing else, to what was printed before. *)
Theorem handler_counts_and_prints_once (host : byteorder) (NO_TRUNC : bool)
    (w : world) (d : delivery) :
  (kernel_data.sizeof ≤ length (d_data d))%nat →
  kind_of host d = 601 ∨ kind_of host d = 602 →
  ∃ w' s,
    print_ipv4_event host NO_TRUNC w (d_cpu d) (d_data d) (d_size d) =
      Some (w', Ok ()) ∧
    kernel_data.__str__ host NO_TRUNC (kernel_data.read host (d_data d)) =
      Ok s ∧
    stdout w' = stdout w ++ [s] ∧
    accepts (estats w') =
      accepts (estats w) + (if decide (kind_of host d = 601) then 1 else 0) ∧
    connects (estats w') =
      connects (estats w) + (if decide (kind_of host d = 601) then 0 else 1).
Proof.
  intros Hsize Hkind.
  destruct (block_of_kind host NO_TRUNC d Hsize) as [Hvalid _].
  destruct (Hvalid Hkind) as (s & Hs & _).
  unfold print_ipv4_event.
  rewrite (proj2 (cast_contents_Some host (d_data d) _) (conj Hsize eq_refl)).
  cbn [mbind option_bind]. rewrite Hs.
  eexists _, s. split; [done|]. split; [done|]. cbn [stdout estats].
  split; [done|]. unfold kind_of.
  destruct (decide (kernel_data.etype (kernel_data.read host (d_data d)) = 601))
    as [He|He].
  - destruct (add_accept (estats w) _ He) as [-> ->]. lia.
  - destruct (add_other (estats w) _ He) as [-> ->]. lia.
Qed.

Lemma handler_counts_and_prints_once_witness :
  ∃ w' s,
    print_ipv4_event LittleEndian false initial_world 3
      (sample_net 602 "/") 216 = Some (w', Ok ()) ∧
    stdout w' = [s] ∧ accepts (estats w') = 0 ∧ connects (estats w') = 1.
Proof.
  destruct (handler_counts_and_prints_once LittleEndian false initial_world
              (mkDelivery 3 (sample_net 602 "/") 216))
    as (w' & s & Hrun & _ & Hout & Ha & Hc).
  - vm_compute. lia.
  - right. reflexivity.
  - exists w', s. split; [exact Hrun|]. split; [exact Hout|].
    split; [exact Ha | exact Hc].
Defined.

(** X8: After the handler has been called for each record of a list, each
    holding the bytes of the structure, the accept counter has gone up by the
    number of records of kind 601 and the connect counter by the number of
    all the others, unknown kinds included; the output has gained the blocks
    of the records of kind 601 or 602, in the order of the calls, and nothing
    for the others. *)
Theorem poll_counts_every_record (host : byteorder) (NO_TRUNC : bool)
    (w : world) (ds : list delivery) :
  full_records ds →
  ∃ w',
    perf_buffer_poll host NO_TRUNC w ds = Some w' ∧
    accepts (estats w') =
      accepts (estats w) +
      Z.of_nat (length (filter (λ d, kind_of host d = 601) ds)) ∧
    connects (estats w') =
      connects (estats w) +
      Z.of_nat (length (filter (λ d, kind_of host d ≠ 601) ds)) ∧
    accepts (estats w') + connects (estats w') =
      accepts (estats w) + connects (estats w) + Z.of_nat (length ds) ∧
    stdout w' = stdout w ++ omap (block_of host NO_TRUNC) ds ∧
    length (omap (block_of host NO_TRUNC) ds) =
      length (filter (λ d, kind_of host d = 601 ∨ kind_of host d = 602) ds).
Proof.
  intros Hfull. eexists. split; [by apply perf_buffer_poll_full|].
  cbn [estats stdout].
  rewrite accepts_add_all, connects_add_all.
  destruct (count_reads host ds) as [Ha Hc].
  pose proof (count_split ((λ d, kernel_data.read host (d_data d)) <$> ds))
    as Hsplit.
  rewrite length_fmap in Hsplit. rewrite <- Ha, <- Hc.
  split; [done|]. split; [done|]. split; [lia|]. split; [done|].
  by apply blocks_length.
Qed.

Lemma poll_counts_every_record_witness :
  ∃ w',
    perf_buffer_poll LittleEndian false initial_world
      [mkDelivery 0 (sample_net 601 "/") 216;
       mkDelivery 1 (sample_net 7 "/") 216] = Some w' ∧
    accepts (estats w') = 1 ∧ connects (estats w') = 1 ∧
    length (stdout w') = 1%nat.
Proof.
  destruct (poll_counts_every_record LittleEndian false initial_world
              [mkDelivery 0 (sample_net 601 "/") 216;
               mkDelivery 1 (sample_net 7 "/") 216])
    as (w' & Hrun & Ha & Hc & _ & Hout & Hlen).
  - repeat first [apply Forall_nil_2 | apply Forall_cons_2; [vm_compute; lia|]].
  - exists w'. split; [exact Hrun|]. split; [exact Ha|]. split; [exact Hc|].
    rewrite Hout, length_app, Hlen. reflexivity.
Defined.

Lemma poll_loop_stopped (host : byteorder) (NO_TRUNC : bool)
    (polls : list poll) (w : world) :
  poll_loop host NO_TRUNC false polls w = Some w.
Proof. by destruct polls. Qed.

Lemma poll_loop_quiet (host : byteorder) (NO_TRUNC : bool)
    (before rest : list poll) (w : world) :
  Forall (λ p, sigint p = false) before →
  poll_loop host NO_TRUNC true (before ++ rest) w =
  perf_buffer_poll host NO_TRUNC w (concat (delivered <$> before)) ≫=
    poll_loop host NO_TRUNC true rest.
Proof.
  intros Hquiet. revert w.
  induction Hquiet as [|p before Hp _ IH]; intros w; [done|].
  cbn [app poll_loop fmap list_fmap concat]. rewrite Hp, perf_buffer_poll_app.
  destruct (perf_buffer_poll host NO_TRUNC w (delivered p)) as [w'|]; [|done].
  apply IH.
Qed.

(** X9: The loop ends with the poll during which SIGINT is handled: every record
    delivered up to the end of that poll is passed to the handler, in order,
    and no later poll is made. *)
Theorem loop_stops_after_interrupted_poll (host : byteorder)
    (NO_TRUNC : bool) (before after : list poll) (p : poll) (w : world) :
  Forall (λ q, sigint q = false) before →
  sigint p = true →
  poll_loop host NO_TRUNC true (before ++ p :: after) w =
  perf_buffer_poll host NO_TRUNC w (concat (delivered <$> (before ++ [p]))).
Proof.
  intros Hquiet Hp.
  rewrite poll_loop_quiet, fmap_app, concat_app, perf_buffer_poll_app by done.
  destruct (perf_buffer_poll host NO_TRUNC w (concat (delivered <$> before)))
    as [w1|]; [|done].
  cbn [mbind option_bind poll_loop fmap list_fmap concat].
  rewrite Hp, app_nil_r.
  destruct (perf_buffer_poll host NO_TRUNC w1 (delivered p)) as [w2|]; [|done].
  apply poll_loop_stopped.
Qed.

Lemma loop_stops_after_interrupted_poll_witness :
  poll_loop LittleEndian false true
    [mkPoll [mkDelivery 0 (sample_net 601 "/") 216] false;
     mkPoll [mkDelivery 1 (sample_net 602 "/") 216] true;
     mkPoll [mkDelivery 0 (sample_net 601 "/") 216] false]
    initial_world =
  perf_buffer_poll LittleEndian false initial_world
    [mkDelivery 0 (sample_net 601 "/") 216;
     mkDelivery 1 (sample_net 602 "/") 216].
Proof.
  apply (loop_stops_after_interrupted_poll LittleEndian false
           [mkPoll [mkDelivery 0 (sample_net 601 "/") 216] false]
           [mkPoll [mkDelivery 0 (sample_net 601 "/") 216] false]
           (mkPoll [mkDelivery 1 (sample_net 602 "/") 216] true)).
  - apply Forall_cons_2; [reflexivity | apply Forall_nil_2].
  - reflexivity.
Defined.

(** X10: Without SIGINT the loop does not end: after any number of polls during
    which no SIGINT is handled it is still polling. *)
Theorem loop_polls_until_sigint (host : byteorder) (NO_TRUNC : bool)
    (polls : list poll) (w : world) :
  Forall (λ q, sigint q = false) polls →
  poll_loop host NO_TRUNC true polls w = None.
Proof.
  intros Hquiet.
  rewrite <- (app_nil_r polls), poll_loop_quiet by done.
  by destruct (perf_buffer_poll _ _ _ _).
Qed.

Lemma loop_polls_until_sigint_witness :
  poll_loop LittleEndian false true
    [mkPoll [mkDelivery 0 (sample_net 601 "/") 216] false; mkPoll [] false]
    initial_world = None.
Proof.
  apply (loop_polls_until_sigint LittleEndian false).
  repeat first [apply Forall_nil_2 | apply Forall_cons_2; [reflexivity|]].
Defined.

Lemma format_report (accpt conn : Z) :
  Events_Statics.__str__
    {| Events_Statics.connect_counter := {| AtomicInteger.m_value := conn |};
       Events_Statics.accept_counter := {| AtomicInteger.m_value := accpt |} |} =
  Ok (summary (accpt + conn) accpt conn).
Proof. unfold Events_Statics.__str__. apply summary_format. Qed.

(** X11: The summary comes last and once, and it counts what was delivered.  When
    the counters start at zero and SIGINT is handled during a poll, the
    output of the loop and of the statement after it is the blocks of the
    records of kind 601 or 602 delivered up to the end of that poll,
    followed by one summary whose total is the number of all the records
    delivered up to then.  When SIGINT was handled before the loop is
    reached, no poll is made and the summary shows three zeros. *)
Theorem report_follows_last_poll (host : byteorder) (NO_TRUNC : bool)
    (before after : list poll) (p : poll) (w : world) :
  estats w = Events_Statics.__init__ →
  Forall (λ q, sigint q = false) before →
  sigint p = true →
  full_records (concat (delivered <$> (before ++ [p]))) →
  let ds := concat (delivered <$> (before ++ [p])) in
  (∃ w',
     poll_and_report host NO_TRUNC true (before ++ p :: after) w =
       Some (w', Ok ()) ∧
     stdout w' =
       stdout w ++ omap (block_of host NO_TRUNC) ds ++
       [cr +:+ "  " +:+ nl +:+
        summary (Z.of_nat (length ds))
          (Z.of_nat (length (filter (λ d, kind_of host d = 601) ds)))
          (Z.of_nat (length (filter (λ d, kind_of host d ≠ 601) ds)))]) ∧
  (∃ w',
     poll_and_report host NO_TRUNC false (before ++ p :: after) w =
       Some (w', Ok ()) ∧
     stdout w' = stdout w ++ [cr +:+ "  " +:+ nl +:+ summary 0 0 0]).
Proof.
  intros Hinit Hquiet Hp Hfull ds. split.
  - unfold poll_and_report.
    rewrite loop_stops_after_interrupted_poll by done. fold ds.
    rewrite perf_buffer_poll_full by done.
    cbn [mbind option_bind estats stdout].
    destruct (count_reads host ds) as [Ha Hc].
    pose proof (count_split ((λ d, kernel_data.read host (d_data d)) <$> ds))
      as Hsplit.
    rewrite length_fmap in Hsplit.
    rewrite Hinit.
    pose proof (accepts_add_all Events_Statics.__init__
                  ((λ d, kernel_data.read host (d_data d)) <$> ds)) as Hacc.
    pose proof (connects_add_all Events_Statics.__init__
                  ((λ d, kernel_data.read host (d_data d)) <$> ds)) as Hconn.
    rewrite Ha in Hacc. rewrite Hc in Hconn.
    destruct (add_all Events_Statics.__init__ _) as [[c] [a]].
    unfold accepts, connects in Hacc, Hconn.
    cbn [Events_Statics.accept_counter Events_Statics.connect_counter
         Events_Statics.__init__ AtomicInteger.__init__ AtomicInteger.get
         AtomicInteger.m_value] in Hacc, Hconn.
    rewrite Z.add_0_l in Hacc, Hconn. subst a c.
    rewrite format_report. eexists. split; [reflexivity|].
    cbn [stdout]. rewrite <- app_assoc. rewrite Ha, Hc in Hsplit.
    replace (Z.of_nat (length ds)) with
      (Z.of_nat (length (filter (λ d, kind_of host d = 601) ds)) +
       Z.of_nat (length (filter (λ d, kind_of host d ≠ 601) ds))) by lia.
    done.
  - unfold poll_and_report. rewrite poll_loop_stopped.
    cbn [mbind option_bind]. rewrite Hinit.
    eexists. split; [reflexivity|]. done.
Qed.

Lemma report_follows_last_poll_witness :
  ∃ w',
    poll_and_report LittleEndian false true
      [mkPoll [mkDelivery 0 (sample_net 601 "/") 216] false;
       mkPoll [mkDelivery 1 (sample_net 7 "/") 216] true]
      initial_world = Some (w', Ok ()) ∧
    last (stdout w') = Some (cr +:+ "  " +:+ nl +:+ summary 2 1 1) ∧
    length (stdout w') = 2%nat.
Proof.
  destruct (report_follows_last_poll LittleEndian false
              [mkPoll [mkDelivery 0 (sample_net 601 "/") 216] false] []
              (mkPoll [mkDelivery 1 (sample_net 7 "/") 216] true)
              initial_world)
    as [(w' & Hrun & Hout) _].
  - reflexivity.
  - apply Forall_cons_2; [reflexivity | apply Forall_nil_2].
  - reflexivity.
  - repeat first [apply Forall_nil_2 | apply Forall_cons_2; [vm_compute; lia|]].
  - exists w'. split; [exact Hrun|]. rewrite Hout. split; vm_compute; reflexivity.
Defined.

(** ** The program text *)

(** X12: A text without the token is returned as it is: a requested task filter
    is then dropped without any notice. *)
Theorem readebpf_without_token (fs : gmap string string) (src : string)
    (task : option string) (txt : string) :
  fs !! "ebpf.c" = Some txt →
  find "FLTR_TASK" txt = None →
  readebpf fs src task = Ok txt.
Proof.
  intros Hfile Hfind. unfold readebpf, read_file. rewrite Hfile.
  cbn [mbind result_bind].
  destruct task as [name|]; [rewrite format_filter|];
    cbn [mbind result_bind]; by rewrite replace_absent.
Qed.

Lemma readebpf_without_token_witness :
  readebpf {[ "ebpf.c" := "int f() { submit(); }" ]} "ebpf.c" (Some "curl") =
  Ok "int f() { submit(); }".
Proof.
  apply (readebpf_without_token
           {[ "ebpf.c" := "int f() { submit(); }" ]} "ebpf.c" (Some "curl")).
  - vm_compute. reflexivity.
  - vm_compute. reflexivity.
Defined.

(** X13: [readebpf] reads the file [ebpf.c] whatever its first argument names:
    it raises IOError exactly when [ebpf.c] is missing, raises nothing else,
    and its result is the same for every first argument and for every file
    system with the same [ebpf.c]. *)
Theorem readebpf_reads_ebpf_c (fs : gmap string string) (src : string)
    (task : option string) :
  (fs !! "ebpf.c" = None → readebpf fs src task = Raise IOError) ∧
  (∀ e, readebpf fs src task = Raise e → e = IOError ∧ fs !! "ebpf.c" = None) ∧
  (∀ fs' src', fs' !! "ebpf.c" = fs !! "ebpf.c" →
               readebpf fs' src' task = readebpf fs src task).
Proof.
  unfold readebpf, read_file. split; [by intros ->|]. split.
  - intros e. destruct (fs !! "ebpf.c") as [txt|]; cbn [mbind result_bind].
    + destruct task as [name|]; [rewrite format_filter|]; done.
    + by intros [= <-].
  - by intros fs' src' ->.
Qed.

Lemma readebpf_reads_ebpf_c_witness :
  readebpf {[ "probe.c" := "FLTR_TASK" ]} "probe.c" None = Raise IOError.
Proof.
  apply (readebpf_reads_ebpf_c {[ "probe.c" := "FLTR_TASK" ]} "probe.c" None).
  vm_compute. reflexivity.
Defined.

(** ** Interleaved calls of [add] *)

Section interleaved_runs.
Import Interleaved.
Implicit Types (s : state) (th : call) (c : bool).

Lemma holds_lock_inside c th :
  on_accept th = c → inside th → holds_lock c th = 1.
Proof.
  intros Hc Hin. unfold holds_lock, inside in *.
  rewrite bool_decide_eq_true_2 by done. by destruct (at_pc th).
Qed.

Lemma run_progress sched s0 s :
  run sched s0 = Some s →
  tally progress (calls s) =
    tally progress (calls s0) + Z.of_nat (length sched) ∧
  length (calls s) = length (calls s0).
Proof.
  revert s0. induction sched as [|i sched IH]; intros s0 H; simplify_eq/=.
  - split; [lia | done].
  - destruct (step i s0) as [s1|] eqn:Hstep; [|done].
    destruct (step_progress i s0 s1 Hstep) as [Hp Hl].
    destruct (IH s1 H) as [Hp' Hl']. split; [lia | congruence].
Qed.

Lemma progress_all_done ths :
  Forall (λ th, at_pc th = Done) ths →
  tally progress ths = 4 * Z.of_nat (length ths).
Proof.
  induction 1 as [|th ths Hth _ IH]; [done|].
  rewrite tally_cons, IH. unfold progress. rewrite Hth. cbn [length]. lia.
Qed.




(** X14: Mutual exclusion: however the calls are scheduled, two different calls
    that work on the same counter are never both between taking and
    releasing its lock. *)
Theorem add_mutual_exclusion (es : list kernel_data.t) (sched : list nat) s
    (i j : nat) (thi thj : call) :
  run sched (spawn es) = Some s →
  i ≠ j →
  calls s !! i = Some thi → calls s !! j = Some thj →
  on_accept thi = on_accept thj →
  inside thi → ¬ inside thj.
Proof.
  intros Hrun Hij Hi Hj Hc Hin Hin'.
  pose proof (run_invariant _ _ _ (spawn_invariant es) Hrun) as Hinv.
  pose proof (lock_holder_unique s (on_accept thi) i j thi thj Hinv Hij Hi Hj
                (holds_lock_inside _ _ eq_refl Hin)) as H0.
  rewrite (holds_lock_inside _ thj) in H0 by done. done.
Qed.

(** X15: No deadlock: in every state that the calls can reach and in which some
    call has not returned, some call can take a step. *)
Theorem add_no_deadlock (es : list kernel_data.t) (sched : list nat) s :
  run sched (spawn es) = Some s →
  ¬ all_done s →
  ∃ i s', step i s = Some s'.
Proof.
  intros Hrun Hnot. apply deadlock_free; [|done].
  exact (run_invariant _ _ _ (spawn_invariant es) Hrun).
Qed.

(** X16: A call takes four steps: a run of the calls for N events has at most 4N
    steps, and all the calls have returned exactly when it has 4N. *)
Theorem add_runs_take_four_steps (es : list kernel_data.t)
    (sched : list nat) s :
  run sched (spawn es) = Some s →
  (length sched ≤ 4 * length es)%nat ∧
  (all_done s ↔ length sched = (4 * length es)%nat).
Proof.
  intros Hrun. destruct (run_progress _ _ _ Hrun) as [Hp Hl].
  assert (H0 : tally progress (calls (spawn es)) = 0).
  { apply tally_zero, Forall_fmap, Forall_forall. by intros e _. }
  assert (Hlen : length (calls (spawn es)) = length es)
    by apply length_fmap.
  destruct (progress_bound (calls s)) as [Hb Hdone].
  rewrite H0 in Hp. rewrite Hlen in Hl. rewrite Hl in Hb, Hdone.
  split; [lia|]. split.
  - intros Hd%progress_all_done. rewrite Hl in Hd. lia.
  - intros Heq. apply Hdone. lia.
Qed.


Lemma add_mutual_exclusion_witness :
  ¬ inside {| on_accept := true; at_pc := Acquire |}.
Proof.
  refine (add_mutual_exclusion [event_of_kind 601; event_of_kind 601]
            [0%nat]
            {| accept_counter := {| m_value := 0; m_lock := true |};
               connect_counter := {| m_value := 0; m_lock := false |};
               calls := [{| on_accept := true; at_pc := Load |};
                         {| on_accept := true; at_pc := Acquire |}] |}
            0 1 {| on_accept := true; at_pc := Load |} _ _ _ _ _ _ _).
  - vm_compute. reflexivity.
  - lia.
  - reflexivity.
  - reflexivity.
  - reflexivity.
  - exact I.
Defined.

Lemma add_no_deadlock_witness :
  ∃ i s',
    step i {| accept_counter := {| m_value := 0; m_lock := true |};
              connect_counter := {| m_value := 0; m_lock := false |};
              calls := [{| on_accept := true; at_pc := Load |};
                        {| on_accept := true; at_pc := Acquire |}] |} =
    Some s'.
Proof.
  apply (add_no_deadlock [event_of_kind 601; event_of_kind 601] [0%nat]).
  - vm_compute. reflexivity.
  - intros Hdone. apply Forall_cons_1 in Hdone as [Hd _]. discriminate Hd.
Defined.

Lemma add_runs_take_four_steps_witness :
  all_done
    {| accept_counter := {| m_value := 1; m_lock := false |};
       connect_counter := {| m_value := 0; m_lock := false |};
       calls := [{| on_accept := true; at_pc := Done |}] |}.
Proof.
  apply (add_runs_take_four_steps [event_of_kind 601] [0; 0; 0; 0]%nat).
  - vm_compute. reflexivity.
  - reflexivity.
Defined.

End interleaved_runs.
